(** * SNMPInterfaceDiscovery: a shallow embedding of
    [collectors/snmpinterfacediscovery/snmpinterfacediscovery.py]

    The collector is Python 2 code (a Diamond collector): its strings are
    byte strings, which is what [string] (a list of 8-bit [ascii]) is here.
    Every method of the class is embedded as a computation in a small
    state-and-exception monad whose state holds the instance attribute
    [self.OIDS], the catalog file and the SNMP requests sent so far. *)

From Stdlib Require Import String Ascii List Bool NArith Permutation.
Import ListNotations.

Open Scope string_scope.
Open Scope list_scope.

(** ** Python built-ins used by the collector *)
Module Py.

(** [sep.join(parts)] *)
Fixpoint join (sep : string) (parts : list string) : string :=
  match parts with
  | [] => EmptyString
  | [p] => p
  | p :: rest => (p ++ sep ++ join sep rest)%string
  end.

(** [needle in hay] on two strings: substring test. *)
Fixpoint str_in (needle hay : string) : bool :=
  String.prefix needle hay ||
  match hay with
  | EmptyString => false
  | String _ rest => str_in needle rest
  end.

(** [x in l] on a list of strings: membership by equality. *)
Definition list_in (x : string) (l : list string) : bool :=
  existsb (String.eqb x) l.

(** A [dict] with string keys and values, in its iteration order.  Python 2
    leaves that order unspecified: the literal order of the source is used
    for the class constants, and what is stated below about the records
    built from them is stated up to their order. *)
Definition dict := list (string * string).

Fixpoint lookup (d : dict) (k : string) : option string :=
  match d with
  | [] => None
  | (k', v) :: rest => if String.eqb k' k then Some v else lookup rest k
  end.

Definition items (d : dict) : list (string * string) := d.
Definition values (d : dict) : list string := map snd d.

Definition in_range (lo hi : N) (c : ascii) : bool :=
  (N.leb lo (N_of_ascii c) && N.leb (N_of_ascii c) hi)%bool.

(** The class [\w] of [re] on a byte string without flags:
    [[a-zA-Z0-9_]]. *)
Definition is_word (c : ascii) : bool :=
  in_range 97 122 c || in_range 65 90 c || in_range 48 57 c
  || N.eqb (N_of_ascii c) 95.

(** [re.sub(r'\W', repl, s)]: every non-word character becomes [repl]. *)
Fixpoint re_sub_nonword (repl : string) (s : string) : string :=
  match s with
  | EmptyString => EmptyString
  | String c rest =>
      if is_word c then String c (re_sub_nonword repl rest)
      else (repl ++ re_sub_nonword repl rest)%string
  end.

Definition dquote : ascii := ascii_of_N 34.
Definition squote : ascii := ascii_of_N 39.

Definition is_quote (c : ascii) : bool :=
  Ascii.eqb c dquote || Ascii.eqb c squote.

(** [re.sub] with the pattern of line 170, an alternation of the double
    quote and the single quote: every such character becomes [repl]. *)
Fixpoint re_sub_quote (repl : string) (s : string) : string :=
  match s with
  | EmptyString => EmptyString
  | String c rest =>
      if is_quote c then (repl ++ re_sub_quote repl rest)%string
      else String c (re_sub_quote repl rest)
  end.

(** [s.replace(old, new)] for a non-empty [old]: the occurrences of [old]
    are replaced from left to right, without overlap.  [skip] counts the
    characters of a matched occurrence still to be dropped. *)
Fixpoint replace_from (skip : nat) (old new s : string) : string :=
  match s with
  | EmptyString => EmptyString
  | String c rest =>
      match skip with
      | S k => replace_from k old new rest
      | O =>
          if String.prefix old s
          then (new ++ replace_from (String.length old - 1) old new rest)%string
          else String c (replace_from O old new rest)
      end
  end.

Definition replace (old new s : string) : string := replace_from 0 old new s.

Definition LF : ascii := ascii_of_N 10.
Definition CR : ascii := ascii_of_N 13.

Definition is_break (c : ascii) : bool := Ascii.eqb c LF || Ascii.eqb c CR.

(** [s.splitlines()] of a byte string: lines end at [\n], [\r] or [\r\n];
    the terminators are dropped and a final unterminated line is kept when
    it is not empty.  [after_cr] records that the previous character was a
    [\r], whose line is already closed, so that a following [\n] belongs to
    the same terminator; [cur] is the line read so far. *)
Fixpoint splitlines_from (after_cr : bool) (cur s : string) : list string :=
  match s with
  | EmptyString =>
      match cur with
      | EmptyString => []
      | _ => [cur]
      end
  | String c rest =>
      if Ascii.eqb c LF then
        if after_cr then splitlines_from false EmptyString rest
        else cur :: splitlines_from false EmptyString rest
      else if Ascii.eqb c CR then
        cur :: splitlines_from true EmptyString rest
      else splitlines_from false (cur ++ String c EmptyString)%string rest
  end.

Definition splitlines (s : string) : list string :=
  splitlines_from false EmptyString s.

Definition newline : string := String LF EmptyString.

End Py.

(** ** Execution model: state, exceptions, and the collaborators *)
Module Exec.

(** The exceptions that can leave a method of the collector. *)
Inductive exn : Type :=
| IOError
| KeyError (key : string)
| UnboundLocalError (name : string)
| TransportError.

Inductive outcome (A : Type) : Type :=
| Return (a : A)
| Raise (e : exn).
Arguments Return {A} a.
Arguments Raise {A} e.

(** An SNMP request as the device sees it. *)
Inductive request : Type :=
| GET (oid host : string) (port : N) (community : string)
| WALK (oid host : string) (port : N) (community : string).

(** The catalog file [OIDFILE]: [oidfile = None] when opening it for
    reading raises [IOError] (missing or unreadable); [oidfile_writable]
    says whether opening it with mode ['w'] succeeds. *)
Record filesystem : Type := {
  oidfile : option string;
  oidfile_writable : bool
}.

Record state : Type := {
  OIDS : list string;      (* self.OIDS *)
  sent : list request;     (* requests made to the device, oldest first *)
  disk : filesystem
}.

(** A computation returns or raises, and leaves a state either way: what a
    method did before an exception stays done. *)
Definition M (A : Type) : Type := state -> outcome A * state.

Definition ret {A} (a : A) : M A := fun s => (Return a, s).
Definition raise {A} (e : exn) : M A := fun s => (Raise e, s).
Definition bind {A B} (m : M A) (k : A -> M B) : M B :=
  fun s =>
    match m s with
    | (Return a, s') => k a s'
    | (Raise e, s') => (Raise e, s')
    end.

(** [try: m except IOError: h] *)
Definition try_IOError {A} (m : M A) (h : M A) : M A :=
  fun s =>
    match m s with
    | (Raise IOError, s') => h s'
    | r => r
    end.

Declare Scope exec_scope.
Delimit Scope exec_scope with exec.
Notation "x <- m ;; k" := (bind m (fun x => k))
  (at level 100, m at next level, right associativity) : exec_scope.
Notation "m ;; k" := (bind m (fun _ => k))
  (at level 100, right associativity) : exec_scope.
Open Scope exec_scope.

(** [for x in l: body(x)] *)
Fixpoint for_each {A} (l : list A) (body : A -> M unit) : M unit :=
  match l with
  | [] => ret tt
  | x :: rest => body x ;; for_each rest body
  end.

(** [d[k]] *)
Definition getitem (d : Py.dict) (k : string) : M string :=
  match Py.lookup d k with
  | Some v => ret v
  | None => raise (KeyError k)
  end.

(** [self.OIDS.append(line)] *)
Definition OIDS_append (line : string) : M unit :=
  fun s => (Return tt,
            {| OIDS := OIDS s ++ [line]; sent := sent s; disk := disk s |}).

(** [self.OIDS = l] *)
Definition OIDS_assign (l : list string) : M unit :=
  fun s => (Return tt, {| OIDS := l; sent := sent s; disk := disk s |}).

Definition OIDS_read : M (list string) := fun s => (Return (OIDS s), s).

Definition send (r : request) : M unit :=
  fun s => (Return tt,
            {| OIDS := OIDS s; sent := sent s ++ [r]; disk := disk s |}).

(** [with open(OIDFILE) as f: f.read()] *)
Definition read_oidfile : M string :=
  fun s =>
    match oidfile (disk s) with
    | Some text => (Return text, s)
    | None => (Raise IOError, s)
    end.

(** The text that one [oidf.write('{0}\n'.format(oid))] per line leaves. *)
Fixpoint written (lines : list string) : string :=
  match lines with
  | [] => EmptyString
  | l :: rest => (l ++ Py.newline ++ written rest)%string
  end.

(** [with open(OIDFILE, 'w') as oidf: for oid in lines: oidf.write(...)]:
    the file is replaced as a whole. *)
Definition write_oidfile (lines : list string) : M unit :=
  fun s =>
    if oidfile_writable (disk s) then
      (Return tt,
       {| OIDS := OIDS s; sent := sent s;
          disk := {| oidfile := Some (written lines);
                     oidfile_writable := true |} |})
    else (Raise IOError, s).

(** [self.log.info(...)]: logging changes nothing that is modelled, and
    the logging module does not let a formatting error reach the caller. *)
Definition log_info : M unit := ret tt.

End Exec.

(** ** The class [SNMPInterfaceDiscovery] *)
Module SNMPInterfaceDiscovery.
Import Py Exec.

Definition IF_MIB_INDEX_OID := "1.3.6.1.2.1.2.2.1.1".
Definition IF_MIB_NAME_OID := "1.3.6.1.2.1.31.1.1.1.1".
Definition IF_MIB_TYPE_OID := "1.3.6.1.2.1.2.2.1.3".
Definition IF_MIB_STATUS_OID := "1.3.6.1.2.1.2.2.1.8".

Definition VENDOR_DESC_OID := "1.3.6.1.2.1.1.1.0".
Definition IOS_XE_CPU_OID := "1.3.6.1.4.1.9.9.109.1.1.1.1.7.2".
Definition CISCO_LEGACY_CPU_OID := "1.3.6.1.4.1.9.9.109.1.1.1.1.7.1".
Definition GENERIC_CPU_OID := "1.3.6.1.4.1.1588.2.1.1.1.26.1.0".

Definition IF_MIB_GAUGE_OID_TABLE : dict :=
  [ ("ifInDiscards", "1.3.6.1.2.1.2.2.1.13");
    ("ifInErrors", "1.3.6.1.2.1.2.2.1.14");
    ("ifOutDiscards", "1.3.6.1.2.1.2.2.1.19");
    ("ifOutErrors", "1.3.6.1.2.1.2.2.1.20") ].

Definition IF_MIB_COUNTER_OID_TABLE : dict :=
  [ ("ifInOctets", "1.3.6.1.2.1.31.1.1.1.6");
    ("ifInUcastPkts", "1.3.6.1.2.1.31.1.1.1.7");
    ("ifInMulticastPkts", "1.3.6.1.2.1.31.1.1.1.8");
    ("ifInBroadcastPkts", "1.3.6.1.2.1.31.1.1.1.9");
    ("ifOutOctets", "1.3.6.1.2.1.31.1.1.1.10");
    ("ifOutUcastPkts", "1.3.6.1.2.1.31.1.1.1.11");
    ("ifOutMulticastPkts", "1.3.6.1.2.1.31.1.1.1.12");
    ("ifOutBroadcastPkts", "1.3.6.1.2.1.31.1.1.1.13") ].

Definition IF_TYPES : list string := ["6"; "135"; "131"].
Definition IF_STATUS : list string := ["1"].

(** [self.config]: the two keys the class reads. *)
Record Config : Type := {
  path : string;
  byte_unit : list string
}.

(** [get_default_config] *)
Definition get_default_config : Config :=
  {| path := "interface"; byte_unit := ["bit"; "byte"] |}.

(** The instance: its configuration and the two methods it inherits from
    the parent [SNMPCollector], which is not part of this repository's
    sources and is taken as a parameter.  [snmp_get] and [snmp_walk] give
    the answer of the SNMP layer to a request: a dict from OID to value, or
    an exception. *)
Record Collector : Type := {
  config : Config;
  snmp_get : string -> string -> N -> string -> outcome dict;
  snmp_walk : string -> string -> N -> string -> outcome dict
}.

Definition lift {A} (o : outcome A) : M A := fun s => (o, s).

(** [self.get(oid, host, port, community)] *)
Definition get (self : Collector) (oid host : string) (port : N)
    (community : string) : M dict :=
  send (GET oid host port community) ;;
  lift (snmp_get self oid host port community).

(** [self.walk(oid, host, port, community)] *)
Definition walk (self : Collector) (oid host : string) (port : N)
    (community : string) : M dict :=
  send (WALK oid host port community) ;;
  lift (snmp_walk self oid host port community).

(** ['{0},{1},{2},{3},{4}'.format(kind, host, community, oid, metricPath)],
    the shape of both ['G,...'] and ['C,...'] format strings. *)
Definition format_desc (kind host community oid metricPath : string)
  : string :=
  (kind ++ "," ++ host ++ "," ++ community ++ "," ++ oid ++ ","
     ++ metricPath)%string.

(** Lines 131-145. *)
Definition parse_oid_file (self : Collector) (host : string)
  : M (list string) :=
  curOids <- try_IOError
               (text <- read_oidfile ;; ret (splitlines text))
               (log_info ;; ret []) ;;
  let oidlist := filter (fun item => negb (str_in host item)) curOids in
  ret oidlist.

(** Lines 176-194. *)
Definition make_gauge_desc (self : Collector)
    (device host community ifName ifIndex : string) : M unit :=
  for_each (items IF_MIB_GAUGE_OID_TABLE) (fun '(gaugeName, gaugeOid) =>
    base <- getitem IF_MIB_GAUGE_OID_TABLE gaugeName ;;
    let ifGaugeOid := join "." [base; ifIndex] in
    let metricIfDescr := re_sub_nonword "_" ifName in
    let metricName := join "." [metricIfDescr; gaugeName] in
    let metricPath :=
      join "." ["devices"; device; path (config self); metricName] in
    let oidDesc := format_desc "G" host community ifGaugeOid metricPath in
    OIDS_append oidDesc).

(** The inner loop of lines 204-214: each unit label assigns [metricPath]
    anew, so the last label decides and an empty list leaves the variable
    as it was. *)
Fixpoint unit_loop (self : Collector) (device metricIfDescr counterName
    : string) (units : list string) (metricPath : option string)
  : option string :=
  match units with
  | [] => metricPath
  | unit :: rest =>
      let metricName :=
        join "." [metricIfDescr; replace "Octets" unit counterName] in
      unit_loop self device metricIfDescr counterName rest
        (Some (join "." ["devices"; device; path (config self);
                         metricName]))
  end.

(** The outer loop of lines 198-228.  [metricPath] is the local variable
    of that name: unbound ([None]) on entry, it keeps its value from one
    iteration to the next. *)
Fixpoint counter_loop (self : Collector)
    (device host community ifName ifIndex : string)
    (counterItems : list (string * string)) (metricPath : option string)
  : M unit :=
  match counterItems with
  | [] => ret tt
  | (counterName, counterOid) :: rest =>
      base <- getitem IF_MIB_COUNTER_OID_TABLE counterName ;;
      let ifCounterOid := join "." [base; ifIndex] in
      let metricIfDescr := re_sub_nonword "_" ifName in
      let metricPath' :=
        if list_in counterName ["ifHCInOctets"; "ifHCOutOctets"] then
          unit_loop self device metricIfDescr counterName
            (byte_unit (config self)) metricPath
        else
          let metricName := join "." [metricIfDescr; counterName] in
          Some (join "." ["devices"; device; path (config self);
                          metricName]) in
      bound <- match metricPath' with
               | Some p => ret p
               | None => raise (UnboundLocalError "metricPath")
               end ;;
      let oidDesc := format_desc "C" host community ifCounterOid bound in
      OIDS_append oidDesc ;;
      counter_loop self device host community ifName ifIndex rest
        metricPath'
  end.

(** Lines 196-228. *)
Definition make_counter_desc (self : Collector)
    (device host community ifName ifIndex : string) : M unit :=
  let counterItems := items IF_MIB_COUNTER_OID_TABLE in
  counter_loop self device host community ifName ifIndex counterItems None.

(** The body of the loop of lines 154-175 for one interface index.  The
    [or] of line 161 looks the status up only when the type is one of
    [IF_TYPES]; [continue] ends the body. *)
Definition index_body (self : Collector) (device host : string) (port : N)
    (community ifIndex : string) : M unit :=
  let ifTypeOid := join "." [IF_MIB_TYPE_OID; ifIndex] in
  ifTypeData <- get self ifTypeOid host port community ;;
  let ifStatusOid := join "." [IF_MIB_STATUS_OID; ifIndex] in
  ifStatusData <- get self ifStatusOid host port community ;;
  ifType <- getitem ifTypeData ifTypeOid ;;
  skip <- (if negb (list_in ifType IF_TYPES) then ret true
           else (ifStatus <- getitem ifStatusData ifStatusOid ;;
                 ret (negb (list_in ifStatus IF_STATUS)))) ;;
  if skip : bool then ret tt
  else
    let ifNameOid := join "." [IF_MIB_NAME_OID; ifIndex] in
    ifNameData <- get self ifNameOid host port community ;;
    ifName <- getitem ifNameData ifNameOid ;;
    let ifName := re_sub_quote EmptyString ifName in
    ifType' <- getitem ifTypeData ifTypeOid ;;
    if String.eqb ifType' "135" then
      make_counter_desc self device host community ifName ifIndex
    else
      (make_gauge_desc self device host community ifName ifIndex ;;
       make_counter_desc self device host community ifName ifIndex).

(** Lines 147-175. *)
Definition get_interface_indexes (self : Collector) (device host : string)
    (port : N) (community : string) : M unit :=
  let ifIndexOid := join "." [IF_MIB_INDEX_OID] in
  ifIndexData <- walk self ifIndexOid host port community ;;
  let ifIndexes := values ifIndexData in
  for_each ifIndexes (index_body self device host port community).

(** Lines 230-270.  The result of [vendorHexString.strip()] on line 233 is
    dropped by the source, so the string is tested as received. *)
Definition get_environment_oid (self : Collector) (device host : string)
    (port : N) (community : string) : M unit :=
  vendorData <- get self VENDOR_DESC_OID host port community ;;
  vendorHexString <- getitem vendorData VENDOR_DESC_OID ;;
  if str_in "494f532d5845" vendorHexString then
    let metricPath :=
      join "." ["devices"; device; "cpu"; "1min_average_percent"] in
    let oidDesc :=
      format_desc "G" host community IOS_XE_CPU_OID metricPath in
    OIDS_append oidDesc
  else if str_in "436973636f" vendorHexString then
    let metricPath :=
      join "." ["devices"; device; "cpu"; "1min_average_percent"] in
    let oidDesc :=
      format_desc "G" host community CISCO_LEGACY_CPU_OID metricPath in
    OIDS_append oidDesc
  else
    let metricPath :=
      join "." ["devices"; device; "cpu"; "current_percent"] in
    let oidDesc :=
      format_desc "G" host community GENERIC_CPU_OID metricPath in
    OIDS_append oidDesc.

(** Lines 272-282. *)
Definition collect_snmp (self : Collector) (device host : string)
    (port : N) (community : string) : M unit :=
  oidlist <- parse_oid_file self host ;;
  OIDS_assign oidlist ;;
  log_info ;;
  get_interface_indexes self device host port community ;;
  get_environment_oid self device host port community ;;
  oids <- OIDS_read ;;
  write_oidfile oids.

End SNMPInterfaceDiscovery.

(** ** Vocabulary of the statements *)
Module Spec.
Import Py Exec SNMPInterfaceDiscovery.

(** No line terminator occurs in the string. *)
Fixpoint no_break (s : string) : bool :=
  match s with
  | EmptyString => true
  | String c rest => negb (is_break c) && no_break rest
  end.

(** The state after [lines] were appended to [self.OIDS] and [reqs] were
    sent to the device. *)
Definition grow (s : state) (lines : list string) (reqs : list request)
  : state :=
  {| OIDS := OIDS s ++ lines; sent := sent s ++ reqs; disk := disk s |}.

(** A computation that neither reads the state nor touches the disk: it
    only appends catalog lines, each of them with the property [P], and
    sends requests, the same ones from every state. *)
Definition appends (P : string -> Prop) {A} (m : M A) : Prop :=
  exists o lines reqs,
    Forall P lines /\ forall s, m s = (o, grow s lines reqs).

(** The line contains the host token. *)
Definition has_host (host line : string) : Prop := str_in host line = true.

(** A state with nothing accumulated, nothing sent and no catalog file. *)
Definition blank : state :=
  {| OIDS := []; sent := [];
     disk := {| oidfile := None; oidfile_writable := true |} |}.

(** The interface walk followed by the CPU classification, as
    [collect_snmp] runs them between reading and writing the catalog. *)
Definition discovery (self : Collector) (device host : string) (port : N)
    (community : string) : M unit :=
  (get_interface_indexes self device host port community ;;
   get_environment_oid self device host port community)%exec.

(** The records one discovery builds. *)
Definition discovered (self : Collector) (device host : string) (port : N)
    (community : string) : list string :=
  OIDS (snd (discovery self device host port community blank)).

(** The lines of the catalog as [parse_oid_file] reads them. *)
Definition catalog_lines (fs : filesystem) : list string :=
  match oidfile fs with
  | Some text => splitlines text
  | None => []
  end.

(** The lines of the catalog that contain the host token. *)
Definition host_lines (host : string) (fs : filesystem) : list string :=
  filter (str_in host) (catalog_lines fs).

(** The lines [parse_oid_file] keeps. *)
Definition other_lines (host : string) (fs : filesystem) : list string :=
  filter (fun item => negb (str_in host item)) (catalog_lines fs).

(** The state in which [collect_snmp] stops: the kept lines and the fresh
    records in [self.OIDS], and [fs] on disk. *)
Definition collected (self : Collector) (device host : string) (port : N)
    (community : string) (s : state) (fs : filesystem) : state :=
  {| OIDS := other_lines host (disk s)
             ++ discovered self device host port community;
     sent := sent s
             ++ sent (snd (discovery self device host port community
                             blank));
     disk := fs |}.

(** One of the GETs that [index_body] makes for [ifIndex] ends in a
    transport error: the type GET, the status GET, or, when type and
    status are accepted, the name GET. *)
Definition get_fails (self : Collector) (host : string) (port : N)
    (community ifIndex : string) : Prop :=
  let ifTypeOid := join "." [IF_MIB_TYPE_OID; ifIndex] in
  let ifStatusOid := join "." [IF_MIB_STATUS_OID; ifIndex] in
  let ifNameOid := join "." [IF_MIB_NAME_OID; ifIndex] in
  snmp_get self ifTypeOid host port community = Raise TransportError
  \/ (exists dT,
        snmp_get self ifTypeOid host port community = Return dT
        /\ snmp_get self ifStatusOid host port community
           = Raise TransportError)
  \/ (exists dT dS ifType ifStatus,
        snmp_get self ifTypeOid host port community = Return dT
        /\ snmp_get self ifStatusOid host port community = Return dS
        /\ lookup dT ifTypeOid = Some ifType
        /\ lookup dS ifStatusOid = Some ifStatus
        /\ In ifType IF_TYPES /\ In ifStatus IF_STATUS
        /\ snmp_get self ifNameOid host port community
           = Raise TransportError).

(** The counter record of one table entry, as lines 199-228 build it when
    the name is not one of the two of line 203. *)
Definition counter_line (self : Collector)
    (device host community ifName ifIndex : string)
    (entry : string * string) : string :=
  ("C," ++ host ++ "," ++ community ++ "," ++ snd entry ++ "." ++ ifIndex
     ++ ",devices." ++ device ++ "." ++ path (config self) ++ "."
     ++ re_sub_nonword "_" ifName ++ "." ++ fst entry)%string.

Definition gauge_line (self : Collector)
    (device host community ifName ifIndex : string)
    (entry : string * string) : string :=
  ("G," ++ host ++ "," ++ community ++ "," ++ snd entry ++ "." ++ ifIndex
     ++ ",devices." ++ device ++ "." ++ path (config self) ++ "."
     ++ re_sub_nonword "_" ifName ++ "." ++ fst entry)%string.

(** A computation that neither reads the state nor touches the disk, with a
    property [P] of every line it appends and a property [Q] of every
    request it sends. *)
Definition effects (P : string -> Prop) (Q : request -> Prop) {A} (m : M A)
  : Prop :=
  exists o lines reqs,
    Forall P lines /\ Forall Q reqs
    /\ forall s, m s = (o, grow s lines reqs).

(** The request is a GET addressed to this host, port and community. *)
Definition get_request (host : string) (port : N) (community : string)
    (r : request) : Prop :=
  exists oid : string, r = GET oid host port community.

(** The line has the five comma-separated parts of a record: a kind letter
    [G] or [C], the host, the community, an OID and a metric path under
    [devices.<device>.]. *)
Definition record_shape (device host community line : string) : Prop :=
  exists kind oid metric : string,
    (kind = "G" \/ kind = "C")
    /\ line = (kind ++ "," ++ host ++ "," ++ community ++ "," ++ oid
                 ++ ",devices." ++ device ++ "." ++ metric)%string.

(** The records that the loop body builds for one index, and those of the
    whole interface walk. *)
Definition index_records (self : Collector) (device host : string)
    (port : N) (community ifIndex : string) : list string :=
  OIDS (snd (index_body self device host port community ifIndex blank)).

Definition interface_records (self : Collector) (device host : string)
    (port : N) (community : string) : list string :=
  OIDS (snd (get_interface_indexes self device host port community blank)).

(** The reply to one of the GETs that [index_body] makes for [ifIndex] lacks
    the OID [key] that the body then looks up: the type, the status of an
    interface of accepted type, or the name of an accepted interface. *)
Definition reply_lacks_key (self : Collector) (host : string) (port : N)
    (community ifIndex key : string) : Prop :=
  let ifTypeOid := join "." [IF_MIB_TYPE_OID; ifIndex] in
  let ifStatusOid := join "." [IF_MIB_STATUS_OID; ifIndex] in
  let ifNameOid := join "." [IF_MIB_NAME_OID; ifIndex] in
  exists dT dS,
    snmp_get self ifTypeOid host port community = Return dT
    /\ snmp_get self ifStatusOid host port community = Return dS
    /\ ((lookup dT ifTypeOid = None /\ key = ifTypeOid)
        \/ (exists ifType,
              lookup dT ifTypeOid = Some ifType /\ In ifType IF_TYPES
              /\ ((lookup dS ifStatusOid = None /\ key = ifStatusOid)
                  \/ (exists ifStatus dN,
                        lookup dS ifStatusOid = Some ifStatus
                        /\ In ifStatus IF_STATUS
                        /\ snmp_get self ifNameOid host port community
                           = Return dN
                        /\ lookup dN ifNameOid = None
                        /\ key = ifNameOid)))).

(** The three CPU records that [get_environment_oid] can append. *)
Definition cpu_records (device host community : string) : list string :=
  [ ("G," ++ host ++ "," ++ community
       ++ ",1.3.6.1.4.1.9.9.109.1.1.1.1.7.2,devices." ++ device
       ++ ".cpu.1min_average_percent")%string;
    ("G," ++ host ++ "," ++ community
       ++ ",1.3.6.1.4.1.9.9.109.1.1.1.1.7.1,devices." ++ device
       ++ ".cpu.1min_average_percent")%string;
    ("G," ++ host ++ "," ++ community
       ++ ",1.3.6.1.4.1.1588.2.1.1.1.26.1.0,devices." ++ device
       ++ ".cpu.current_percent")%string ].

(** The strings that go into the records of a discovery hold no line
    terminator: the device name, the host, the community, the configured
    path and the indices that the walk returns. *)
Definition clean_target (self : Collector) (device host : string) (port : N)
    (community : string) : Prop :=
  no_break device = true /\ no_break host = true
  /\ no_break community = true /\ no_break (path (config self)) = true
  /\ forall ifIndexData,
       snmp_walk self IF_MIB_INDEX_OID host port community
       = Return ifIndexData ->
       Forall (fun ifIndex => no_break ifIndex = true) (values ifIndexData).

End Spec.

(** ** Simulated devices, for the concrete runs *)
Module Fixture.
Import Py Exec SNMPInterfaceDiscovery.

Definition quoted (s : string) : string :=
  String dquote (s ++ String dquote EmptyString)%string.

(** An agent answers the OIDs it knows with a one-entry dict, times out
    on those marked [None], and gives an empty dict for the rest. *)
Definition agent (answers : list (string * option string))
    (oid host : string) (port : N) (community : string) : outcome dict :=
  match find (fun a => String.eqb (fst a) oid) answers with
  | Some (_, Some v) => Return [(oid, v)]
  | Some (_, None) => Raise TransportError
  | None => Return []
  end.

Definition walked (rows : dict) (oid host : string) (port : N)
    (community : string) : outcome dict :=
  if String.eqb oid IF_MIB_INDEX_OID then Return rows else Return [].

Definition device := "router1".
Definition host := "router1.example.com".
Definition port : N := 161.
Definition community := "public".

(** Index 5: ethernet, up, its name reported inside double quotes.
    Index 7: loopback (type 24), up.  Index 9: type 135, up.
    Index 11: ethernet, down.  The description is the hex text of
    [Cisco IOS Software]. *)
Definition router1 : Collector :=
  {| config := get_default_config;
     snmp_get := agent
       [ ("1.3.6.1.2.1.2.2.1.3.5", Some "6");
         ("1.3.6.1.2.1.2.2.1.8.5", Some "1");
         ("1.3.6.1.2.1.31.1.1.1.1.5", Some (quoted "Gi0/1"));
         ("1.3.6.1.2.1.2.2.1.3.7", Some "24");
         ("1.3.6.1.2.1.2.2.1.8.7", Some "1");
         ("1.3.6.1.2.1.31.1.1.1.1.7", Some "Lo0");
         ("1.3.6.1.2.1.2.2.1.3.9", Some "135");
         ("1.3.6.1.2.1.2.2.1.8.9", Some "1");
         ("1.3.6.1.2.1.31.1.1.1.1.9", Some "Vl10");
         ("1.3.6.1.2.1.2.2.1.3.11", Some "6");
         ("1.3.6.1.2.1.2.2.1.8.11", Some "2");
         ("1.3.6.1.2.1.31.1.1.1.1.11", Some "Gi0/2");
         ("1.3.6.1.2.1.1.1.0", Some "436973636f20494f5320536f667477617265") ];
     snmp_walk := walked
       [ ("1.3.6.1.2.1.2.2.1.1.5", "5");
         ("1.3.6.1.2.1.2.2.1.1.7", "7");
         ("1.3.6.1.2.1.2.2.1.1.9", "9");
         ("1.3.6.1.2.1.2.2.1.1.11", "11") ] |}.

(** [router1] configured with another list of unit labels. *)
Definition router1_with (units : list string) : Collector :=
  {| config := {| path := "interface"; byte_unit := units |};
     snmp_get := snmp_get router1;
     snmp_walk := snmp_walk router1 |}.

(** Two ethernet interfaces that are up; the type GET of index 1 times
    out, index 2 answers every GET. *)
Definition flaky : Collector :=
  {| config := get_default_config;
     snmp_get := agent
       [ ("1.3.6.1.2.1.2.2.1.3.1", None);
         ("1.3.6.1.2.1.2.2.1.8.1", Some "1");
         ("1.3.6.1.2.1.31.1.1.1.1.1", Some "Gi0/1");
         ("1.3.6.1.2.1.2.2.1.3.2", Some "6");
         ("1.3.6.1.2.1.2.2.1.8.2", Some "1");
         ("1.3.6.1.2.1.31.1.1.1.1.2", Some "Gi0/2");
         ("1.3.6.1.2.1.1.1.0", Some "436973636f20494f5320536f667477617265") ];
     snmp_walk := walked
       [ ("1.3.6.1.2.1.2.2.1.1.1", "1");
         ("1.3.6.1.2.1.2.2.1.1.2", "2") ] |}.

(** The same two interfaces, the failure now on the second one. *)
Definition flaky_late : Collector :=
  {| config := get_default_config;
     snmp_get := agent
       [ ("1.3.6.1.2.1.2.2.1.3.1", Some "135");
         ("1.3.6.1.2.1.2.2.1.8.1", Some "1");
         ("1.3.6.1.2.1.31.1.1.1.1.1", Some "Vl1");
         ("1.3.6.1.2.1.2.2.1.3.2", None);
         ("1.3.6.1.2.1.2.2.1.8.2", Some "1");
         ("1.3.6.1.2.1.31.1.1.1.1.2", Some "Gi0/2");
         ("1.3.6.1.2.1.1.1.0", Some "436973636f20494f5320536f667477617265") ];
     snmp_walk := walked
       [ ("1.3.6.1.2.1.2.2.1.1.1", "1");
         ("1.3.6.1.2.1.2.2.1.1.2", "2") ] |}.

(** A catalog holding records of [router2] around a stale record of
    [router1]. *)
Definition shared_catalog : list string :=
  [ "G,router2.example.com,public,1.3.6.1.2.1.2.2.1.13.1,devices.router2.interface.Gi0_0.ifInDiscards";
    "C,router1.example.com,public,1.3.6.1.2.1.31.1.1.1.6.3,devices.router1.interface.Gi0_9.ifInOctets";
    "G,router2.example.com,public,1.3.6.1.4.1.1588.2.1.1.1.26.1.0,devices.router2.cpu.current_percent" ].

Definition start : state :=
  {| OIDS := []; sent := [];
     disk := {| oidfile := Some (written shared_catalog);
                oidfile_writable := true |} |}.

(** A device that does not answer: the walk times out, and a GET comes back
    without the OID asked for. *)
Definition unreachable : Collector :=
  {| config := get_default_config;
     snmp_get := agent [];
     snmp_walk := fun _ _ _ _ => Raise TransportError |}.

(** A device whose interface table is empty; its description is the hex
    text of [Linux]. *)
Definition bare : Collector :=
  {| config := get_default_config;
     snmp_get := agent [("1.3.6.1.2.1.1.1.0", Some "4c696e7578")];
     snmp_walk := walked [] |}.

(** [router1] without an answer to the description GET. *)
Definition mute : Collector :=
  {| config := get_default_config;
     snmp_get := agent
       [ ("1.3.6.1.2.1.2.2.1.3.9", Some "135");
         ("1.3.6.1.2.1.2.2.1.8.9", Some "1");
         ("1.3.6.1.2.1.31.1.1.1.1.9", Some "Vl10") ];
     snmp_walk := walked [ ("1.3.6.1.2.1.2.2.1.1.9", "9") ] |}.

(** [router1] with a walk that lists, between the indices 9 and 5, an index
    99 about which the agent knows nothing. *)
Definition ghost : Collector :=
  {| config := get_default_config;
     snmp_get := snmp_get router1;
     snmp_walk := walked
       [ ("1.3.6.1.2.1.2.2.1.1.9", "9");
         ("1.3.6.1.2.1.2.2.1.1.99", "99");
         ("1.3.6.1.2.1.2.2.1.1.5", "5") ] |}.

(** A second device behind the same collector: [router2], with one ethernet
    interface that is up.  The agent answers by OID, whatever the host. *)
Definition device2 := "router2".
Definition host2 := "router2.example.com".

End Fixture.

Import Py Exec SNMPInterfaceDiscovery Spec.

(** ** Strings *)

Lemma string_app_assoc (a b c : string) :
  ((a ++ b) ++ c = a ++ b ++ c)%string.
Proof.
  induction a as [|x a IH]; simpl; [reflexivity | now rewrite IH].
Qed.

Lemma string_app_empty_r (a : string) : (a ++ EmptyString)%string = a.
Proof.
  induction a as [|x a IH]; simpl; [reflexivity | now rewrite IH].
Qed.

Lemma prefix_app (h b : string) : String.prefix h (h ++ b) = true.
Proof.
  induction h as [|x h IH]; simpl.
  - now destruct b.
  - destruct (ascii_dec x x) as [_|ne]; [exact IH | now elim ne].
Qed.

Lemma str_in_app (h a b : string) : str_in h (a ++ h ++ b) = true.
Proof.
  induction a as [|x a IH].
  - simpl (EmptyString ++ _)%string.
    pose proof (prefix_app h b) as P.
    destruct (h ++ b)%string; cbn [str_in]; rewrite P; reflexivity.
  - simpl. rewrite IH. apply orb_true_r.
Qed.

(** Every serialized record contains its host field. *)
Lemma str_in_format_desc (kind host community oid metricPath : string) :
  str_in host (format_desc kind host community oid metricPath) = true.
Proof.
  unfold format_desc.
  rewrite <- (string_app_assoc kind ","). apply str_in_app.
Qed.

Lemma is_word_underscore : is_word "_" = true.
Proof. reflexivity. Qed.

Lemma re_sub_nonword_underscore_cons (c : ascii) (s : string) :
  re_sub_nonword "_" (String c s)
  = String (if is_word c then c else "_"%char) (re_sub_nonword "_" s).
Proof.
  simpl. now destruct (is_word c).
Qed.

Lemma re_sub_nonword_all_word (s : string) (c : ascii) :
  In c (list_ascii_of_string (re_sub_nonword "_" s)) -> is_word c = true.
Proof.
  induction s as [|x s IH]; [intros [] |].
  rewrite re_sub_nonword_underscore_cons. simpl.
  intros [<- | H]; [| now apply IH].
  destruct (is_word x) eqn:E; [exact E | reflexivity].
Qed.

Lemma re_sub_nonword_idempotent (s : string) :
  re_sub_nonword "_" (re_sub_nonword "_" s) = re_sub_nonword "_" s.
Proof.
  induction s as [|x s IH]; [reflexivity |].
  rewrite !re_sub_nonword_underscore_cons, IH.
  destruct (is_word x) eqn:E; [now rewrite E | reflexivity].
Qed.

Lemma re_sub_nonword_get (s : string) (n : nat) :
  String.get n (re_sub_nonword "_" s)
  = option_map (fun c => if is_word c then c else "_"%char) (String.get n s).
Proof.
  revert n. induction s as [|x s IH]; intros n; [reflexivity |].
  rewrite re_sub_nonword_underscore_cons.
  destruct n as [|n]; simpl; [reflexivity | apply IH].
Qed.

Lemma re_sub_nonword_length (s : string) :
  String.length (re_sub_nonword "_" s) = String.length s.
Proof.
  induction s as [|x s IH]; [reflexivity |].
  rewrite re_sub_nonword_underscore_cons. simpl. now rewrite IH.
Qed.

Lemma re_sub_quote_cons (c : ascii) (s : string) :
  re_sub_quote EmptyString (String c s)
  = if is_quote c then re_sub_quote EmptyString s
    else String c (re_sub_quote EmptyString s).
Proof. reflexivity. Qed.

Lemma re_sub_quote_no_quote (s : string) (c : ascii) :
  In c (list_ascii_of_string (re_sub_quote EmptyString s)) ->
  is_quote c = false.
Proof.
  induction s as [|x s IH]; [intros [] |].
  rewrite re_sub_quote_cons. destruct (is_quote x) eqn:E; [exact IH |].
  simpl. intros [<- | H]; [exact E | now apply IH].
Qed.

(** Deleting the quotes keeps the other characters, in order. *)
Lemma re_sub_quote_filter (s : string) :
  list_ascii_of_string (re_sub_quote EmptyString s)
  = filter (fun c => negb (is_quote c)) (list_ascii_of_string s).
Proof.
  induction s as [|x s IH]; [reflexivity |].
  rewrite re_sub_quote_cons. simpl.
  destruct (is_quote x); simpl; now rewrite IH.
Qed.

(** ** Lines of a file *)

Lemma no_break_app (a b : string) :
  no_break (a ++ b) = no_break a && no_break b.
Proof.
  induction a as [|x a IH]; simpl; [reflexivity |].
  now rewrite IH, andb_assoc.
Qed.

Lemma is_break_false (c : ascii) :
  Ascii.eqb c LF = false -> Ascii.eqb c CR = false -> is_break c = false.
Proof.
  unfold is_break. now intros -> ->.
Qed.

(** No line that [splitlines] returns contains a line terminator. *)
Lemma splitlines_from_no_break (s : string) :
  forall (after_cr : bool) (cur : string),
    no_break cur = true ->
    Forall (fun l => no_break l = true) (splitlines_from after_cr cur s).
Proof.
  induction s as [|c s IH]; intros after_cr cur Hcur; simpl.
  - destruct cur; [constructor | now repeat constructor].
  - destruct (Ascii.eqb c LF) eqn:ELF.
    + destruct after_cr; [| constructor; [exact Hcur |]]; now apply IH.
    + destruct (Ascii.eqb c CR) eqn:ECR.
      * constructor; [exact Hcur | now apply IH].
      * apply IH. rewrite no_break_app, Hcur. simpl.
        now rewrite (is_break_false c ELF ECR).
Qed.

Lemma splitlines_no_break (text : string) :
  Forall (fun l => no_break l = true) (splitlines text).
Proof.
  now apply splitlines_from_no_break.
Qed.

(** A written line ends where the next one starts, whatever it holds. *)
Lemma splitlines_from_line (x rest : string) :
  forall (after_cr : bool) (cur : string),
    splitlines_from after_cr cur (x ++ newline ++ rest)
    = splitlines_from after_cr cur (x ++ newline) ++ splitlines rest.
Proof.
  induction x as [|c x IH]; intros after_cr cur.
  - simpl. now destruct after_cr.
  - simpl. destruct (Ascii.eqb c LF); [destruct after_cr |];
      [now rewrite IH | now rewrite IH |].
    destruct (Ascii.eqb c CR); now rewrite IH.
Qed.

Lemma splitlines_from_clean_line (x : string) :
  forall cur : string,
    no_break x = true ->
    splitlines_from false cur (x ++ newline) = [(cur ++ x)%string].
Proof.
  induction x as [|c x IH]; intros cur Hx.
  - simpl. now rewrite string_app_empty_r.
  - simpl in Hx. apply andb_true_iff in Hx as [Hc Hx].
    unfold is_break in Hc. apply negb_true_iff, orb_false_iff in Hc as [H1 H2].
    simpl. rewrite H1, H2, (IH _ Hx), string_app_assoc. reflexivity.
Qed.

Lemma written_cons (x : string) (xs : list string) :
  written (x :: xs) = (x ++ newline ++ written xs)%string.
Proof. reflexivity. Qed.

Lemma splitlines_written_cons (x : string) (xs : list string) :
  splitlines (written (x :: xs))
  = splitlines (x ++ newline) ++ splitlines (written xs).
Proof.
  rewrite written_cons. apply splitlines_from_line.
Qed.

Lemma splitlines_written_app (xs ys : list string) :
  splitlines (written (xs ++ ys))
  = splitlines (written xs) ++ splitlines (written ys).
Proof.
  induction xs as [|x xs IH]; [reflexivity |].
  rewrite <- app_comm_cons, !splitlines_written_cons, IH.
  apply app_assoc.
Qed.

(** What was written comes back line by line, when no record holds a line
    terminator. *)
Lemma splitlines_written_clean (xs : list string) :
  Forall (fun l => no_break l = true) xs -> splitlines (written xs) = xs.
Proof.
  induction 1 as [|x xs Hx _ IH]; [reflexivity |].
  rewrite splitlines_written_cons, IH. unfold splitlines.
  now rewrite (splitlines_from_clean_line x _ Hx).
Qed.

Lemma Forall_filter {A} (P : A -> Prop) (f : A -> bool) (l : list A) :
  Forall P l -> Forall P (filter f l).
Proof.
  induction 1 as [|x l Hx _ IH]; simpl; [constructor |].
  destruct (f x); [now constructor | exact IH].
Qed.

Lemma filter_filter_negb {A} (f : A -> bool) (l : list A) :
  filter f (filter (fun x => negb (f x)) l) = [].
Proof.
  induction l as [|x l IH]; [reflexivity |].
  simpl. destruct (f x) eqn:E; simpl; [exact IH | now rewrite E].
Qed.

Lemma filter_none {A} (f : A -> bool) (l : list A) :
  forallb (fun x => negb (f x)) l = true -> filter f l = [].
Proof.
  induction l as [|x l IH]; [reflexivity |].
  simpl. destruct (f x); simpl; [discriminate | exact IH].
Qed.

Lemma filter_filter_implied {A} (f g : A -> bool) (l : list A) :
  (forall x, In x l -> f x = true -> g x = true) ->
  filter f (filter g l) = filter f l.
Proof.
  induction l as [|x l IH]; intros H; [reflexivity |].
  simpl. destruct (g x) eqn:G; simpl.
  - rewrite IH; [reflexivity |]. intros y Hy. apply H. now right.
  - destruct (f x) eqn:F.
    + rewrite (H x (or_introl eq_refl) F) in G. discriminate G.
    + apply IH. intros y Hy. apply H. now right.
Qed.

(** ** Computations that only append and send *)

Lemma grow_grow (s : state) (l1 l2 : list string) (r1 r2 : list request) :
  grow (grow s l1 r1) l2 r2 = grow s (l1 ++ l2) (r1 ++ r2).
Proof.
  unfold grow; simpl. now rewrite !app_assoc.
Qed.

Lemma grow_nil (s : state) : grow s [] [] = s.
Proof.
  destruct s; unfold grow; simpl. now rewrite !app_nil_r.
Qed.

Section Appends.
Variable P : string -> Prop.

Lemma appends_ret {A} (a : A) : appends P (ret a).
Proof.
  exists (Return a), [], []. split; [constructor |].
  intros s. now rewrite grow_nil.
Qed.

Lemma appends_raise {A} (e : exn) : appends P (@raise A e).
Proof.
  exists (Raise e), [], []. split; [constructor |].
  intros s. now rewrite grow_nil.
Qed.

Lemma appends_lift {A} (o : outcome A) : appends P (lift o).
Proof.
  exists o, [], []. split; [constructor |].
  intros s. now rewrite grow_nil.
Qed.

Lemma appends_bind {A B} (m : M A) (k : A -> M B) :
  appends P m -> (forall a, appends P (k a)) -> appends P (bind m k).
Proof.
  intros (o & l1 & r1 & P1 & Hm) Hk. destruct o as [a | e].
  - destruct (Hk a) as (o & l2 & r2 & P2 & Hka).
    exists o, (l1 ++ l2), (r1 ++ r2). split.
    + apply Forall_app. now split.
    + intros s. unfold bind. now rewrite Hm, Hka, grow_grow.
  - exists (Raise e), l1, r1. split; [exact P1 |].
    intros s. unfold bind. now rewrite Hm.
Qed.

Lemma appends_getitem (d : dict) (k : string) : appends P (getitem d k).
Proof.
  unfold getitem. destruct (lookup d k);
    [apply appends_ret | apply appends_raise].
Qed.

Lemma appends_OIDS_append (line : string) :
  P line -> appends P (OIDS_append line).
Proof.
  intros HP. exists (Return tt), [line], []. split; [now constructor |].
  intros s. unfold OIDS_append, grow. now rewrite app_nil_r.
Qed.

Lemma appends_send (r : request) : appends P (send r).
Proof.
  exists (Return tt), [], [r]. split; [constructor |].
  intros s. unfold send, grow. now rewrite app_nil_r.
Qed.

Lemma appends_for_each {A} (l : list A) (body : A -> M unit) :
  (forall x, appends P (body x)) -> appends P (for_each l body).
Proof.
  intros Hbody. induction l as [|x l IH]; simpl.
  - apply appends_ret.
  - apply appends_bind; [apply Hbody | intros _; exact IH].
Qed.

Lemma appends_get (self : Collector) (oid host : string) (port : N)
    (community : string) : appends P (get self oid host port community).
Proof.
  unfold get. apply appends_bind;
    [apply appends_send | intros _; apply appends_lift].
Qed.

Lemma appends_walk (self : Collector) (oid host : string) (port : N)
    (community : string) : appends P (walk self oid host port community).
Proof.
  unfold walk. apply appends_bind;
    [apply appends_send | intros _; apply appends_lift].
Qed.

(** The outcome, the lines and the requests of such a computation can be
    read off its run from the blank state. *)
Lemma appends_run {A} (m : M A) :
  appends P m ->
  forall s,
    m s = (fst (m blank),
           grow s (OIDS (snd (m blank))) (sent (snd (m blank)))).
Proof.
  intros (o & ls & rs & _ & H) s. now rewrite (H s), (H blank).
Qed.

Lemma appends_lines {A} (m : M A) :
  appends P m -> Forall P (OIDS (snd (m blank))).
Proof.
  intros (o & ls & rs & HP & H). now rewrite (H blank).
Qed.

End Appends.

Create HintDb appends.
#[local] Hint Resolve appends_ret appends_raise appends_lift appends_getitem
  appends_send appends_get appends_walk : appends.

Ltac appends_step :=
  first
    [ solve [auto with appends]
    | apply appends_bind; [| intros ?]
    | apply appends_for_each; intros ? ].

Lemma for_each_app {A} (l1 l2 : list A) (body : A -> M unit) (s : state) :
  for_each (l1 ++ l2) body s
  = bind (for_each l1 body) (fun _ => for_each l2 body) s.
Proof.
  revert s. induction l1 as [|x l1 IH]; intros s; [reflexivity |].
  simpl. unfold bind.
  destruct (body x s) as [[[] | e] s1]; [exact (IH s1) | reflexivity].
Qed.

Lemma bind_assoc {A B C} (m : M A) (k : A -> M B) (h : B -> M C) (s : state) :
  bind (bind m k) h s = bind m (fun a => bind (k a) h) s.
Proof.
  unfold bind. destruct (m s) as [[a | e] s1]; reflexivity.
Qed.

(** ** The record builders *)

(** [make_gauge_desc] appends one gauge record per entry of the gauge
    table and never raises. *)
Lemma make_gauge_desc_run (self : Collector)
    (device host community ifName ifIndex : string) (s : state) :
  make_gauge_desc self device host community ifName ifIndex s
  = (Return tt,
     grow s (map (gauge_line self device host community ifName ifIndex)
                 IF_MIB_GAUGE_OID_TABLE) []).
Proof.
  unfold make_gauge_desc, grow. cbn.
  rewrite <- !app_assoc, app_nil_r. reflexivity.
Qed.

(** [make_counter_desc] appends one counter record per entry of the counter
    table, named after the entry, and never raises: no key of the table is
    one of the two names of line 203, so [byte_unit] is not consulted. *)
Lemma make_counter_desc_run (self : Collector)
    (device host community ifName ifIndex : string) (s : state) :
  make_counter_desc self device host community ifName ifIndex s
  = (Return tt,
     grow s (map (counter_line self device host community ifName ifIndex)
                 IF_MIB_COUNTER_OID_TABLE) []).
Proof.
  unfold make_counter_desc, grow. cbn.
  rewrite <- !app_assoc, app_nil_r. reflexivity.
Qed.

Lemma gauge_line_host (self : Collector)
    (device host community ifName ifIndex : string) (e : string * string) :
  str_in host (gauge_line self device host community ifName ifIndex e) = true.
Proof. unfold gauge_line. apply str_in_app. Qed.

Lemma counter_line_host (self : Collector)
    (device host community ifName ifIndex : string) (e : string * string) :
  str_in host (counter_line self device host community ifName ifIndex e)
  = true.
Proof. unfold counter_line. apply str_in_app. Qed.

Lemma appends_make_gauge_desc (self : Collector)
    (device host community ifName ifIndex : string) :
  appends (has_host host)
    (make_gauge_desc self device host community ifName ifIndex).
Proof.
  eexists _, _, _. split; [| intros s; apply make_gauge_desc_run].
  apply Forall_forall. intros l Hl. apply in_map_iff in Hl as (e & <- & _).
  apply gauge_line_host.
Qed.

Lemma appends_make_counter_desc (self : Collector)
    (device host community ifName ifIndex : string) :
  appends (has_host host)
    (make_counter_desc self device host community ifName ifIndex).
Proof.
  eexists _, _, _. split; [| intros s; apply make_counter_desc_run].
  apply Forall_forall. intros l Hl. apply in_map_iff in Hl as (e & <- & _).
  apply counter_line_host.
Qed.

#[local] Hint Resolve appends_make_gauge_desc appends_make_counter_desc
  : appends.

Lemma appends_index_body (self : Collector) (device host : string)
    (port : N) (community ifIndex : string) :
  appends (has_host host)
    (index_body self device host port community ifIndex).
Proof.
  unfold index_body.
  apply appends_bind; [auto with appends | intros ifTypeData].
  apply appends_bind; [auto with appends | intros ifStatusData].
  apply appends_bind; [auto with appends | intros ifType].
  apply appends_bind;
    [destruct (negb _); repeat appends_step
    | intros [|]; repeat appends_step].
  destruct (String.eqb _ _); repeat appends_step.
Qed.

Lemma appends_get_interface_indexes (self : Collector)
    (device host : string) (port : N) (community : string) :
  appends (has_host host)
    (get_interface_indexes self device host port community).
Proof.
  unfold get_interface_indexes.
  apply appends_bind; [auto with appends | intros ifIndexData].
  apply appends_for_each. intros ifIndex. apply appends_index_body.
Qed.

Lemma appends_get_environment_oid (self : Collector)
    (device host : string) (port : N) (community : string) :
  appends (has_host host)
    (get_environment_oid self device host port community).
Proof.
  unfold get_environment_oid.
  apply appends_bind; [auto with appends | intros vendorData].
  apply appends_bind; [auto with appends | intros vendorHexString].
  destruct (str_in _ _); [| destruct (str_in _ _)];
    apply appends_OIDS_append, str_in_format_desc.
Qed.

Lemma appends_discovery (self : Collector) (device host : string)
    (port : N) (community : string) :
  appends (has_host host) (discovery self device host port community).
Proof.
  unfold discovery. apply appends_bind;
    [apply appends_get_interface_indexes
    | intros _; apply appends_get_environment_oid].
Qed.

(** ** One discovery run *)

(** [parse_oid_file] never raises: it returns the lines of the catalog that
    do not contain the host token, none when the file cannot be read. *)
Lemma parse_oid_file_run (self : Collector) (host : string) (s : state) :
  parse_oid_file self host s = (Return (other_lines host (disk s)), s).
Proof.
  unfold parse_oid_file, other_lines, catalog_lines, try_IOError, bind,
    read_oidfile.
  destruct (oidfile (disk s)); reflexivity.
Qed.

(** What [collect_snmp] does, in terms of the outcome and the records of the
    discovery: an exception of the discovery leaves the file alone, and so
    does a file that cannot be opened for writing. *)
Lemma collect_snmp_run (self : Collector) (device host : string) (port : N)
    (community : string) (s : state) :
  collect_snmp self device host port community s
  = match fst (discovery self device host port community blank) with
    | Raise e =>
        (Raise e, collected self device host port community s (disk s))
    | Return _ =>
        if oidfile_writable (disk s) then
          (Return tt,
           collected self device host port community s
             {| oidfile :=
                  Some (written
                          (other_lines host (disk s)
                           ++ discovered self device host port community));
                oidfile_writable := true |})
        else
          (Raise IOError,
           collected self device host port community s (disk s))
    end.
Proof.
  unfold collect_snmp. unfold bind at 1. rewrite parse_oid_file_run.
  unfold bind at 1, OIDS_assign at 1. unfold bind at 1, log_info at 1, ret at 1.
  set (s1 := {| OIDS := other_lines host (disk s); sent := sent s;
                disk := disk s |}).
  transitivity
    (bind (discovery self device host port community)
          (fun _ => bind OIDS_read write_oidfile) s1).
  { unfold discovery. now rewrite bind_assoc. }
  unfold bind at 1.
  rewrite (appends_run _ _ (appends_discovery self device host port
                              community) s1).
  unfold collected, discovered.
  destruct (fst (discovery self device host port community blank))
    as [[] | e]; [| reflexivity].
  unfold bind, OIDS_read, write_oidfile, grow. simpl.
  destruct (oidfile_writable (disk s)); reflexivity.
Qed.

(** ** One interface index *)

Lemma list_in_In (x : string) (l : list string) :
  list_in x l = true <-> In x l.
Proof.
  unfold list_in. rewrite existsb_exists. split.
  - intros (y & Hy & E). apply String.eqb_eq in E. now subst.
  - intros H. exists x. split; [exact H | apply String.eqb_refl].
Qed.

Lemma list_in_not_In (x : string) (l : list string) :
  list_in x l = false <-> ~ In x l.
Proof.
  rewrite <- list_in_In. destruct (list_in x l); split; intros H;
    try reflexivity; try discriminate; now elim H.
Qed.

Lemma get_run (self : Collector) (oid host : string) (port : N)
    (community : string) (s : state) :
  get self oid host port community s
  = (snmp_get self oid host port community,
     grow s [] [GET oid host port community]).
Proof.
  unfold get, bind, send, lift, grow. simpl. now rewrite app_nil_r.
Qed.

Lemma walk_run (self : Collector) (oid host : string) (port : N)
    (community : string) (s : state) :
  walk self oid host port community s
  = (snmp_walk self oid host port community,
     grow s [] [WALK oid host port community]).
Proof.
  unfold walk, bind, send, lift, grow. simpl. now rewrite app_nil_r.
Qed.

(** The records of an interface whose type and status are accepted: the
    gauge records unless the type is 135, then the counter records, built
    from the name with its quotes deleted. *)
Lemma index_body_accepted (self : Collector) (device host : string)
    (port : N) (community ifIndex : string) (dT dS dN : dict)
    (ifType ifStatus raw : string) (s : state) :
  let ifTypeOid := join "." [IF_MIB_TYPE_OID; ifIndex] in
  let ifStatusOid := join "." [IF_MIB_STATUS_OID; ifIndex] in
  let ifNameOid := join "." [IF_MIB_NAME_OID; ifIndex] in
  let ifName := re_sub_quote EmptyString raw in
  snmp_get self ifTypeOid host port community = Return dT ->
  snmp_get self ifStatusOid host port community = Return dS ->
  snmp_get self ifNameOid host port community = Return dN ->
  lookup dT ifTypeOid = Some ifType ->
  lookup dS ifStatusOid = Some ifStatus ->
  lookup dN ifNameOid = Some raw ->
  In ifType IF_TYPES -> In ifStatus IF_STATUS ->
  index_body self device host port community ifIndex s
  = (Return tt,
     grow s
       ((if String.eqb ifType "135" then []
         else map (gauge_line self device host community ifName ifIndex)
                  IF_MIB_GAUGE_OID_TABLE)
        ++ map (counter_line self device host community ifName ifIndex)
               IF_MIB_COUNTER_OID_TABLE)
       [GET ifTypeOid host port community;
        GET ifStatusOid host port community;
        GET ifNameOid host port community]).
Proof.
  intros ifTypeOid ifStatusOid ifNameOid ifName HT HS HN LT LS LN IT IS.
  apply list_in_In in IT, IS.
  unfold index_body. fold ifTypeOid ifStatusOid ifNameOid.
  unfold bind at 1. rewrite get_run, HT.
  unfold bind at 1. rewrite get_run, HS.
  unfold bind at 1, getitem at 1. rewrite LT. unfold ret at 1.
  unfold bind at 1. rewrite IT. cbn [negb].
  unfold bind at 1, getitem at 1. rewrite LS. unfold ret at 1 2.
  rewrite IS. cbn [negb].
  unfold bind at 1. rewrite get_run, HN.
  unfold bind at 1, getitem at 1. rewrite LN. unfold ret at 1.
  unfold bind at 1, getitem at 1. rewrite LT. unfold ret at 1.
  fold ifName. rewrite !grow_grow. cbn [app].
  destruct (String.eqb ifType "135").
  - rewrite make_counter_desc_run, grow_grow. reflexivity.
  - unfold bind. rewrite make_gauge_desc_run, make_counter_desc_run.
    rewrite !grow_grow. reflexivity.
Qed.

(** An interface whose type or status is not accepted: two GETs, no
    record, no exception. *)
Lemma index_body_rejected (self : Collector) (device host : string)
    (port : N) (community ifIndex : string) (dT dS : dict)
    (ifType : string) (s : state) :
  let ifTypeOid := join "." [IF_MIB_TYPE_OID; ifIndex] in
  let ifStatusOid := join "." [IF_MIB_STATUS_OID; ifIndex] in
  snmp_get self ifTypeOid host port community = Return dT ->
  snmp_get self ifStatusOid host port community = Return dS ->
  lookup dT ifTypeOid = Some ifType ->
  (~ In ifType IF_TYPES
   \/ exists ifStatus,
        lookup dS ifStatusOid = Some ifStatus /\ ~ In ifStatus IF_STATUS) ->
  index_body self device host port community ifIndex s
  = (Return tt,
     grow s [] [GET ifTypeOid host port community;
                GET ifStatusOid host port community]).
Proof.
  intros ifTypeOid ifStatusOid HT HS LT Hrej.
  unfold index_body. fold ifTypeOid ifStatusOid.
  unfold bind at 1. rewrite get_run, HT.
  unfold bind at 1. rewrite get_run, HS.
  unfold bind at 1, getitem at 1. rewrite LT. unfold ret at 1.
  rewrite !grow_grow. cbn [app].
  destruct (list_in ifType IF_TYPES) eqn:IT.
  - destruct Hrej as [Hrej | (ifStatus & LS & Hrej)].
    + apply list_in_not_In in Hrej. congruence.
    + apply list_in_not_In in Hrej.
      unfold bind, getitem, ret. cbn [negb]. rewrite LS, Hrej. reflexivity.
  - reflexivity.
Qed.

(** A GET that times out ends the body with that error; nothing was
    appended for the index. *)
Lemma index_body_get_fails (self : Collector) (device host : string)
    (port : N) (community ifIndex : string) (s : state) :
  get_fails self host port community ifIndex ->
  exists reqs,
    index_body self device host port community ifIndex s
    = (Raise TransportError, grow s [] reqs).
Proof.
  unfold get_fails.
  intros [HT | [(dT & HT & HS)
               | (dT & dS & ifType & ifStatus & HT & HS & LT & LS & IT & IS
                  & HN)]];
    unfold index_body.
  - unfold bind at 1. rewrite get_run, HT. eauto.
  - unfold bind at 1. rewrite get_run, HT.
    unfold bind at 1. rewrite get_run, HS, grow_grow. eauto.
  - apply list_in_In in IT, IS.
    unfold bind at 1. rewrite get_run, HT.
    unfold bind at 1. rewrite get_run, HS.
    unfold bind at 1, getitem at 1. rewrite LT. unfold ret at 1.
    unfold bind at 1. rewrite IT. cbn [negb].
    unfold bind at 1, getitem at 1. rewrite LS. unfold ret at 1 2.
    rewrite IS. cbn [negb].
    unfold bind at 1. rewrite get_run, HN, !grow_grow. eauto.
Qed.

(** ** The claims *)

(** C7. Interface-name sanitization, the [re.sub] of lines 181 and 202, is
    total and idempotent: for every input string the result holds only
    characters of [[A-Za-z0-9_]], every character that is not one of them is
    replaced by an underscore and the others are kept in place, sanitizing
    twice equals sanitizing once, and [Gi0/1] sanitizes to [Gi0_1]. *)
Theorem C7_sanitization_total_idempotent :
  forall ifName : string,
    Forall (fun c => is_word c = true)
           (list_ascii_of_string (re_sub_nonword "_" ifName))
    /\ (forall n : nat,
          String.get n (re_sub_nonword "_" ifName)
          = option_map (fun c => if is_word c then c else "_"%char)
                       (String.get n ifName))
    /\ re_sub_nonword "_" (re_sub_nonword "_" ifName)
       = re_sub_nonword "_" ifName
    /\ re_sub_nonword "_" "Gi0/1" = "Gi0_1".
Proof.
  intros ifName. repeat split.
  - apply Forall_forall. intros c. apply re_sub_nonword_all_word.
  - intros n. apply re_sub_nonword_get.
  - apply re_sub_nonword_idempotent.
Qed.

(** C10. Before sanitization, line 170 deletes the double-quote and
    single-quote characters of the raw interface name: no quote is left and
    the other characters stay in order.  So the raw name [Gi0/1] between
    double quotes, which index 5 of [router1] reports, yields the metric
    segment [Gi0_1], where sanitization alone would give [_Gi0_1_]; the
    records of that index are the twelve listed, in some order. *)
Theorem C10_quotes_deleted_before_sanitization :
  (forall raw : string,
      Forall (fun c => is_quote c = false)
             (list_ascii_of_string (re_sub_quote EmptyString raw))
      /\ list_ascii_of_string (re_sub_quote EmptyString raw)
         = filter (fun c => negb (is_quote c)) (list_ascii_of_string raw))
  /\ snmp_get Fixture.router1 "1.3.6.1.2.1.31.1.1.1.1.5" Fixture.host
       Fixture.port Fixture.community
     = Return [("1.3.6.1.2.1.31.1.1.1.1.5", Fixture.quoted "Gi0/1")]
  /\ re_sub_nonword "_" (re_sub_quote EmptyString (Fixture.quoted "Gi0/1"))
     = "Gi0_1"
  /\ re_sub_nonword "_" (Fixture.quoted "Gi0/1") = "_Gi0_1_"
  /\ fst (index_body Fixture.router1 Fixture.device Fixture.host Fixture.port
            Fixture.community "5" blank) = Return tt
  /\ Permutation
       (OIDS (snd (index_body Fixture.router1 Fixture.device Fixture.host
                     Fixture.port Fixture.community "5" blank)))
       [ "G,router1.example.com,public,1.3.6.1.2.1.2.2.1.13.5,devices.router1.interface.Gi0_1.ifInDiscards";
         "G,router1.example.com,public,1.3.6.1.2.1.2.2.1.14.5,devices.router1.interface.Gi0_1.ifInErrors";
         "G,router1.example.com,public,1.3.6.1.2.1.2.2.1.19.5,devices.router1.interface.Gi0_1.ifOutDiscards";
         "G,router1.example.com,public,1.3.6.1.2.1.2.2.1.20.5,devices.router1.interface.Gi0_1.ifOutErrors";
         "C,router1.example.com,public,1.3.6.1.2.1.31.1.1.1.6.5,devices.router1.interface.Gi0_1.ifInOctets";
         "C,router1.example.com,public,1.3.6.1.2.1.31.1.1.1.7.5,devices.router1.interface.Gi0_1.ifInUcastPkts";
         "C,router1.example.com,public,1.3.6.1.2.1.31.1.1.1.8.5,devices.router1.interface.Gi0_1.ifInMulticastPkts";
         "C,router1.example.com,public,1.3.6.1.2.1.31.1.1.1.9.5,devices.router1.interface.Gi0_1.ifInBroadcastPkts";
         "C,router1.example.com,public,1.3.6.1.2.1.31.1.1.1.10.5,devices.router1.interface.Gi0_1.ifOutOctets";
         "C,router1.example.com,public,1.3.6.1.2.1.31.1.1.1.11.5,devices.router1.interface.Gi0_1.ifOutUcastPkts";
         "C,router1.example.com,public,1.3.6.1.2.1.31.1.1.1.12.5,devices.router1.interface.Gi0_1.ifOutMulticastPkts";
         "C,router1.example.com,public,1.3.6.1.2.1.31.1.1.1.13.5,devices.router1.interface.Gi0_1.ifOutBroadcastPkts" ].
Proof.
  split.
  - intros raw. split; [| apply re_sub_quote_filter].
    apply Forall_forall. intros c. apply re_sub_quote_no_quote.
  - repeat split; vm_compute; reflexivity.
Qed.

(** C5. For every interface index whose type is not one of 6, 135, 131 or
    whose status is not 1, the loop body emits no catalog record: it makes
    the type GET and the status GET, and leaves before any name GET or
    record construction. *)
Theorem C5_rejected_interface_emits_nothing (self : Collector)
    (device host : string) (port : N) (community ifIndex : string)
    (ifTypeData ifStatusData : dict) (ifType : string) (s : state) :
  snmp_get self ("1.3.6.1.2.1.2.2.1.3." ++ ifIndex) host port community
  = Return ifTypeData ->
  snmp_get self ("1.3.6.1.2.1.2.2.1.8." ++ ifIndex) host port community
  = Return ifStatusData ->
  lookup ifTypeData ("1.3.6.1.2.1.2.2.1.3." ++ ifIndex) = Some ifType ->
  (~ In ifType ["6"; "135"; "131"]
   \/ exists ifStatus,
        lookup ifStatusData ("1.3.6.1.2.1.2.2.1.8." ++ ifIndex)
        = Some ifStatus
        /\ ifStatus <> "1") ->
  index_body self device host port community ifIndex s
  = (Return tt,
     {| OIDS := OIDS s;
        sent := sent s
                ++ [GET ("1.3.6.1.2.1.2.2.1.3." ++ ifIndex) host port
                      community;
                    GET ("1.3.6.1.2.1.2.2.1.8." ++ ifIndex) host port
                      community];
        disk := disk s |}).
Proof.
  intros HT HS LT Hrej.
  rewrite (index_body_rejected self device host port community ifIndex
             ifTypeData ifStatusData ifType s HT HS LT).
  - unfold grow. now rewrite app_nil_r.
  - destruct Hrej as [H | (ifStatus & LS & H)]; [now left | right].
    exists ifStatus. split; [exact LS |].
    intros [E | []]. apply H. now symmetry.
Qed.

(** C5 at index 7 of [router1], a loopback (type 24) that is up. *)
Lemma C5_witness :
  index_body Fixture.router1 Fixture.device Fixture.host Fixture.port
    Fixture.community "7" blank
  = (Return tt,
     {| OIDS := [];
        sent := [GET "1.3.6.1.2.1.2.2.1.3.7" Fixture.host Fixture.port
                   Fixture.community;
                 GET "1.3.6.1.2.1.2.2.1.8.7" Fixture.host Fixture.port
                   Fixture.community];
        disk := disk blank |}).
Proof.
  apply (C5_rejected_interface_emits_nothing Fixture.router1 Fixture.device
           Fixture.host Fixture.port Fixture.community "7"
           [("1.3.6.1.2.1.2.2.1.3.7", "24")]
           [("1.3.6.1.2.1.2.2.1.8.7", "1")] "24" blank);
    try reflexivity.
  left. simpl. intros [H | [H | [H | []]]]; discriminate H.
Defined.

(** C4. For every vendor-description string the classification appends
    exactly one CPU record: with the IOS-XE signature [494f532d5845] in the
    string, the record of OID [1.3.6.1.4.1.9.9.109.1.1.1.1.7.2] and metric
    [cpu.1min_average_percent]; otherwise, with the Cisco signature
    [436973636f], the record of OID [1.3.6.1.4.1.9.9.109.1.1.1.1.7.1] and the
    same metric; otherwise the record of OID
    [1.3.6.1.4.1.1588.2.1.1.1.26.1.0] and metric [cpu.current_percent].  No
    description is left without a variant. *)
Theorem C4_cpu_classification (self : Collector) (device host : string)
    (port : N) (community : string) (vendorData : dict)
    (vendorHexString : string) (s : state) :
  snmp_get self "1.3.6.1.2.1.1.1.0" host port community = Return vendorData ->
  lookup vendorData "1.3.6.1.2.1.1.1.0" = Some vendorHexString ->
  exists oidDesc : string,
    get_environment_oid self device host port community s
    = (Return tt,
       {| OIDS := OIDS s ++ [oidDesc];
          sent := sent s ++ [GET "1.3.6.1.2.1.1.1.0" host port community];
          disk := disk s |})
    /\ (str_in "494f532d5845" vendorHexString = true ->
        oidDesc
        = ("G," ++ host ++ "," ++ community
             ++ ",1.3.6.1.4.1.9.9.109.1.1.1.1.7.2,devices." ++ device
             ++ ".cpu.1min_average_percent")%string)
    /\ (str_in "494f532d5845" vendorHexString = false ->
        str_in "436973636f" vendorHexString = true ->
        oidDesc
        = ("G," ++ host ++ "," ++ community
             ++ ",1.3.6.1.4.1.9.9.109.1.1.1.1.7.1,devices." ++ device
             ++ ".cpu.1min_average_percent")%string)
    /\ (str_in "494f532d5845" vendorHexString = false ->
        str_in "436973636f" vendorHexString = false ->
        oidDesc
        = ("G," ++ host ++ "," ++ community
             ++ ",1.3.6.1.4.1.1588.2.1.1.1.26.1.0,devices." ++ device
             ++ ".cpu.current_percent")%string).
Proof.
  intros HG LV. unfold get_environment_oid.
  unfold bind at 1. change VENDOR_DESC_OID with "1.3.6.1.2.1.1.1.0".
  rewrite get_run, HG.
  unfold bind at 1, getitem at 1. rewrite LV. unfold ret at 1.
  destruct (str_in "494f532d5845" vendorHexString) eqn:XE;
    [| destruct (str_in "436973636f" vendorHexString) eqn:CI];
    eexists;
    (split; [unfold OIDS_append, grow; simpl; rewrite app_nil_r; reflexivity
            |]);
    repeat split; intros; try discriminate; reflexivity.
Qed.

(** C4 at [router1], whose description is the hex text of
    [Cisco IOS Software]: the legacy Cisco record. *)
Lemma C4_witness :
  exists oidDesc : string,
    get_environment_oid Fixture.router1 Fixture.device Fixture.host
      Fixture.port Fixture.community blank
    = (Return tt,
       {| OIDS := [oidDesc];
          sent := [GET "1.3.6.1.2.1.1.1.0" Fixture.host Fixture.port
                     Fixture.community];
          disk := disk blank |})
    /\ oidDesc
       = "G,router1.example.com,public,1.3.6.1.4.1.9.9.109.1.1.1.1.7.1,devices.router1.cpu.1min_average_percent".
Proof.
  destruct (C4_cpu_classification Fixture.router1 Fixture.device Fixture.host
              Fixture.port Fixture.community
              [("1.3.6.1.2.1.1.1.0", "436973636f20494f5320536f667477617265")]
              "436973636f20494f5320536f667477617265" blank
              eq_refl eq_refl)
    as (oidDesc & Hrun & _ & Hcisco & _).
  exists oidDesc. split; [exact Hrun |].
  apply Hcisco; reflexivity.
Defined.

(** C9. Loading the catalog when the file is missing or unreadable returns
    the empty sequence of lines and is not an error, and the discovery run
    proceeds as if the catalog were empty: same outcome, same accumulated
    records, same requests, and the same file when the run does not
    raise. *)
Theorem C9_missing_catalog_reads_as_empty (self : Collector)
    (device host : string) (port : N) (community : string)
    (oids : list string) (reqs : list request) (writable : bool) :
  let missing :=
    {| OIDS := oids; sent := reqs;
       disk := {| oidfile := None; oidfile_writable := writable |} |} in
  let empty :=
    {| OIDS := oids; sent := reqs;
       disk := {| oidfile := Some EmptyString;
                  oidfile_writable := writable |} |} in
  let run := collect_snmp self device host port community in
  parse_oid_file self host missing = (Return [], missing)
  /\ parse_oid_file self host empty = (Return [], empty)
  /\ fst (run missing) = fst (run empty)
  /\ OIDS (snd (run missing)) = OIDS (snd (run empty))
  /\ sent (snd (run missing)) = sent (snd (run empty))
  /\ ((exists e, fst (run missing) = Raise e)
      \/ disk (snd (run missing)) = disk (snd (run empty))).
Proof.
  intros missing empty run. subst run.
  split; [reflexivity |]. split; [reflexivity |].
  rewrite !collect_snmp_run.
  destruct (fst (discovery self device host port community blank))
    as [[] | e].
  - destruct writable; simpl.
    + repeat split. now right.
    + repeat split. left. now exists IOError.
  - repeat split. left. now exists e.
Qed.

(** The lines kept by [parse_oid_file] hold no line terminator and none of
    them contains the host token. *)
Lemma other_lines_no_break (host : string) (fs : filesystem) :
  Forall (fun l => no_break l = true) (other_lines host fs).
Proof.
  unfold other_lines, catalog_lines. apply Forall_filter.
  destruct (oidfile fs); [apply splitlines_no_break | constructor].
Qed.

(** After a write of kept lines followed by fresh records, the catalog
    reads as the kept lines followed by the lines of the fresh records. *)
Lemma catalog_after_write (host : string) (fs : filesystem)
    (fresh : list string) (w : bool) :
  catalog_lines
    {| oidfile := Some (written (other_lines host fs ++ fresh));
       oidfile_writable := w |}
  = other_lines host fs ++ splitlines (written fresh).
Proof.
  unfold catalog_lines. simpl.
  rewrite splitlines_written_app.
  now rewrite (splitlines_written_clean _ (other_lines_no_break host fs)).
Qed.

Lemma host_lines_after_write (host : string) (fs : filesystem)
    (fresh : list string) (w : bool) :
  host_lines host
    {| oidfile := Some (written (other_lines host fs ++ fresh));
       oidfile_writable := w |}
  = filter (str_in host) (splitlines (written fresh)).
Proof.
  unfold host_lines. rewrite catalog_after_write, filter_app.
  unfold other_lines. now rewrite filter_filter_negb.
Qed.

(** C3. The catalog merge is a host-scoped replacement.  When discovery and
    persist for host A ends normally, the file it leaves holds every line of
    the previous catalog that does not contain A's host token, unchanged and
    in its original relative order, followed by the records this run built,
    each of which contains A's host token; read back, the catalog starts
    with those surviving lines.  For a host B whose lines do not contain A's
    token and whose token is in no line of A's fresh records, the lines of B
    are the same after the run as before. *)
Theorem C3_host_scoped_replacement (self : Collector) (device host : string)
    (port : N) (community : string) (s s' : state) :
  collect_snmp self device host port community s = (Return tt, s') ->
  oidfile (disk s')
  = Some (written
            (filter (fun item => negb (str_in host item))
                    (catalog_lines (disk s))
             ++ discovered self device host port community))
  /\ Forall (fun record => str_in host record = true)
            (discovered self device host port community)
  /\ catalog_lines (disk s')
     = filter (fun item => negb (str_in host item)) (catalog_lines (disk s))
       ++ splitlines (written (discovered self device host port community))
  /\ (forall hostB : string,
        forallb (fun item => implb (str_in hostB item)
                                   (negb (str_in host item)))
                (catalog_lines (disk s)) = true ->
        forallb (fun item => negb (str_in hostB item))
                (splitlines
                   (written (discovered self device host port community)))
        = true ->
        host_lines hostB (disk s') = host_lines hostB (disk s)).
Proof.
  intros Hrun. rewrite collect_snmp_run in Hrun.
  assert (Hfresh : Forall (fun record => str_in host record = true)
                     (discovered self device host port community))
    by apply (appends_lines _ _ (appends_discovery self device host port
                                   community)).
  destruct (fst (discovery self device host port community blank))
    as [[] | e]; [| discriminate Hrun].
  destruct (oidfile_writable (disk s)); [| discriminate Hrun].
  injection Hrun as <-. unfold collected; cbn [disk].
  split; [reflexivity |]. split; [exact Hfresh |].
  split; [apply catalog_after_write |].
  intros hostB Hold Hnew. unfold host_lines.
  rewrite catalog_after_write, filter_app.
  rewrite (filter_none _ _ Hnew), app_nil_r.
  unfold other_lines. apply filter_filter_implied.
  rewrite forallb_forall in Hold. intros item Hin HB.
  specialize (Hold item Hin). now rewrite HB in Hold.
Qed.

(** C3 at [router1] on the shared catalog: the two records of [router2]
    survive in order, the stale record of [router1] is gone, the fresh
    records follow, and the lines of [router2] are what they were. *)
Lemma C3_witness :
  oidfile
    (disk (snd (collect_snmp Fixture.router1 Fixture.device Fixture.host
                  Fixture.port Fixture.community Fixture.start)))
  = Some (written
            ([ "G,router2.example.com,public,1.3.6.1.2.1.2.2.1.13.1,devices.router2.interface.Gi0_0.ifInDiscards";
               "G,router2.example.com,public,1.3.6.1.4.1.1588.2.1.1.1.26.1.0,devices.router2.cpu.current_percent" ]
             ++ discovered Fixture.router1 Fixture.device Fixture.host
                  Fixture.port Fixture.community))
  /\ host_lines "router2.example.com"
       (disk (snd (collect_snmp Fixture.router1 Fixture.device Fixture.host
                     Fixture.port Fixture.community Fixture.start)))
     = host_lines "router2.example.com" (disk Fixture.start).
Proof.
  destruct (C3_host_scoped_replacement Fixture.router1 Fixture.device
              Fixture.host Fixture.port Fixture.community Fixture.start
              (snd (collect_snmp Fixture.router1 Fixture.device Fixture.host
                      Fixture.port Fixture.community Fixture.start)))
    as (Hfile & _ & _ & HB).
  - vm_compute. reflexivity.
  - split.
    + rewrite Hfile. reflexivity.
    + apply HB; vm_compute; reflexivity.
Defined.

(** C8. Running discovery twice in succession for the same device, with the
    answers of the device and the configuration unchanged, leaves after the
    second run the same catalog lines for that host, byte for byte, as after
    the first run; the second run also ends as the first did. *)
Theorem C8_rediscovery_idempotent (self : Collector) (device host : string)
    (port : N) (community : string) (s : state) :
  let run := collect_snmp self device host port community in
  let s1 := snd (run s) in
  let s2 := snd (run s1) in
  fst (run s1) = fst (run s)
  /\ host_lines host (disk s2) = host_lines host (disk s1).
Proof.
  intros run s1 s2. subst s2 s1 run.
  rewrite (collect_snmp_run self device host port community s).
  destruct (fst (discovery self device host port community blank))
    as [[] | e] eqn:Hout.
  - destruct (oidfile_writable (disk s)) eqn:Hw; cbn [fst snd].
    + rewrite collect_snmp_run, Hout. cbn [collected disk oidfile_writable].
      cbn [fst snd collected disk].
      split; [reflexivity |]. now rewrite !host_lines_after_write.
    + rewrite collect_snmp_run, Hout. cbn [collected disk]. rewrite Hw.
      split; reflexivity.
  - cbn [fst snd]. rewrite collect_snmp_run, Hout. split; reflexivity.
Qed.

(** C2, refuted as stated.  On [flaky] the walk returns the indices 1 and 2
    and the type GET of index 1 times out; index 2 alone would give twelve
    records.  The enumeration does not go on to index 2: it ends with the
    transport error and has built no record. *)
Lemma C2_counterexample :
  snmp_walk Fixture.flaky "1.3.6.1.2.1.2.2.1.1" Fixture.host Fixture.port
    Fixture.community
  = Return [("1.3.6.1.2.1.2.2.1.1.1", "1"); ("1.3.6.1.2.1.2.2.1.1.2", "2")]
  /\ snmp_get Fixture.flaky "1.3.6.1.2.1.2.2.1.3.1" Fixture.host Fixture.port
       Fixture.community
     = Raise TransportError
  /\ fst (index_body Fixture.flaky Fixture.device Fixture.host Fixture.port
            Fixture.community "2" blank) = Return tt
  /\ List.length
       (OIDS (snd (index_body Fixture.flaky Fixture.device Fixture.host
                     Fixture.port Fixture.community "2" blank))) = 12
  /\ get_interface_indexes Fixture.flaky Fixture.device Fixture.host
       Fixture.port Fixture.community blank
     = (Raise TransportError,
        {| OIDS := [];
           sent := [WALK "1.3.6.1.2.1.2.2.1.1" Fixture.host Fixture.port
                      Fixture.community;
                    GET "1.3.6.1.2.1.2.2.1.3.1" Fixture.host Fixture.port
                      Fixture.community];
           disk := disk blank |})
  /\ ~ (exists s',
          get_interface_indexes Fixture.flaky Fixture.device Fixture.host
            Fixture.port Fixture.community blank
          = (Return tt, s')).
Proof.
  repeat split; try (vm_compute; reflexivity).
  intros (s' & H). vm_compute in H. discriminate H.
Qed.

(** C2, amended.  [get_interface_indexes] has no handler around the
    per-index GETs.  When the walk returns the indices [pre ++ ifIndex ::
    post], the indices of [pre] are processed without exception and a GET
    for [ifIndex] (type, status, or the name of an accepted interface) fails
    with a transport error, the enumeration ends with that error: the
    records of [pre] are in the accumulator, none was built for [ifIndex] or
    for [post], and [collect_snmp] ends with the same error without writing
    the catalog file. *)
Theorem C2_get_failure_aborts_enumeration (self : Collector)
    (device host : string) (port : N) (community : string)
    (ifIndexData : dict) (pre : list string) (ifIndex : string)
    (post : list string) (s : state) :
  snmp_walk self "1.3.6.1.2.1.2.2.1.1" host port community
  = Return ifIndexData ->
  values ifIndexData = pre ++ ifIndex :: post ->
  fst (for_each pre (index_body self device host port community) blank)
  = Return tt ->
  get_fails self host port community ifIndex ->
  let built :=
    OIDS (snd (for_each pre (index_body self device host port community)
                 blank)) in
  (exists s',
      get_interface_indexes self device host port community s
      = (Raise TransportError, s')
      /\ OIDS s' = OIDS s ++ built /\ disk s' = disk s)
  /\ (exists s',
        collect_snmp self device host port community s
        = (Raise TransportError, s')
        /\ OIDS s' = other_lines host (disk s) ++ built
        /\ disk s' = disk s).
Proof.
  intros HW Hvalues Hpre Hfail built.
  assert (Henum : forall t, exists t',
             get_interface_indexes self device host port community t
             = (Raise TransportError, t')
             /\ OIDS t' = OIDS t ++ built /\ disk t' = disk t).
  { intros t. unfold get_interface_indexes.
    change (join "." [IF_MIB_INDEX_OID]) with "1.3.6.1.2.1.2.2.1.1".
    unfold bind at 1. rewrite walk_run, HW, Hvalues, for_each_app.
    unfold bind at 1.
    rewrite (appends_run (has_host host) _
               (appends_for_each _ pre _
                  (appends_index_body self device host port community))).
    rewrite Hpre. fold built. cbn [for_each]. unfold bind at 1.
    destruct (index_body_get_fails self device host port community ifIndex
                (grow (grow t [] [WALK "1.3.6.1.2.1.2.2.1.1" host port
                                    community])
                      built
                      (sent (snd (for_each pre
                                    (index_body self device host port
                                       community) blank))))
                Hfail) as (reqs & ->).
    eexists. split; [reflexivity |].
    unfold grow; simpl. now rewrite !app_nil_r. }
  split; [apply Henum |].
  destruct (Henum blank) as (b' & Hb & Hlines & _).
  rewrite collect_snmp_run. unfold discovered, discovery.
  unfold bind. rewrite Hb. cbn [fst snd].
  eexists. split; [reflexivity |].
  unfold collected, discovered, discovery, bind. rewrite Hb. cbn [snd OIDS disk].
  rewrite Hlines. split; reflexivity.
Qed.

(** The amended C2 at [flaky_late]: the eight records of index 1 are built,
    the type GET of index 2 times out, and the catalog file stays as it
    was. *)
Lemma C2_witness :
  (exists s',
      get_interface_indexes Fixture.flaky_late Fixture.device Fixture.host
        Fixture.port Fixture.community Fixture.start
      = (Raise TransportError, s')
      /\ List.length (OIDS s') = 8
      /\ disk s' = disk Fixture.start)
  /\ (exists s',
        collect_snmp Fixture.flaky_late Fixture.device Fixture.host
          Fixture.port Fixture.community Fixture.start
        = (Raise TransportError, s')
        /\ List.length (OIDS s') = 10
        /\ disk s' = disk Fixture.start).
Proof.
  destruct (C2_get_failure_aborts_enumeration Fixture.flaky_late
              Fixture.device Fixture.host Fixture.port Fixture.community
              [("1.3.6.1.2.1.2.2.1.1.1", "1"); ("1.3.6.1.2.1.2.2.1.1.2", "2")]
              ["1"] "2" [] Fixture.start eq_refl eq_refl eq_refl
              (or_introl eq_refl))
    as [(s1 & H1 & L1 & D1) (s2 & H2 & L2 & D2)].
  split.
  - exists s1. split; [exact H1 |]. split; [| exact D1].
    rewrite L1. reflexivity.
  - exists s2. split; [exact H2 |]. split; [| exact D2].
    rewrite L2. reflexivity.
Defined.

(** The unit loop of lines 204-214 leaves in [metricPath] the path of the
    last label only. *)
Lemma unit_loop_last_label (self : Collector)
    (device metricIfDescr counterName : string) (units : list string)
    (unit : string) (metricPath : option string) :
  unit_loop self device metricIfDescr counterName (units ++ [unit]) metricPath
  = Some (join "." ["devices"; device; path (config self);
                    join "." [metricIfDescr;
                              replace "Octets" unit counterName]]).
Proof.
  revert metricPath. induction units as [|u units IH]; intros metricPath;
    [reflexivity | apply IH].
Qed.

(** C1, the code at the failing input.  Under the default unit labels [bit]
    and [byte], [make_counter_desc] builds for the interface [Gi0/1] of
    index 5 exactly the eight records listed, in some order: the two octets
    counters have one record each, under the names [ifInOctets] and
    [ifOutOctets], and no record bears a unit label.  Whatever the list of
    unit labels, the method does the same. *)
Theorem C1_octets_records_not_expanded :
  byte_unit (config Fixture.router1) = ["bit"; "byte"]
  /\ fst (make_counter_desc Fixture.router1 Fixture.device Fixture.host
            Fixture.community "Gi0/1" "5" blank) = Return tt
  /\ Permutation
       (OIDS (snd (make_counter_desc Fixture.router1 Fixture.device
                     Fixture.host Fixture.community "Gi0/1" "5" blank)))
       [ "C,router1.example.com,public,1.3.6.1.2.1.31.1.1.1.6.5,devices.router1.interface.Gi0_1.ifInOctets";
         "C,router1.example.com,public,1.3.6.1.2.1.31.1.1.1.7.5,devices.router1.interface.Gi0_1.ifInUcastPkts";
         "C,router1.example.com,public,1.3.6.1.2.1.31.1.1.1.8.5,devices.router1.interface.Gi0_1.ifInMulticastPkts";
         "C,router1.example.com,public,1.3.6.1.2.1.31.1.1.1.9.5,devices.router1.interface.Gi0_1.ifInBroadcastPkts";
         "C,router1.example.com,public,1.3.6.1.2.1.31.1.1.1.10.5,devices.router1.interface.Gi0_1.ifOutOctets";
         "C,router1.example.com,public,1.3.6.1.2.1.31.1.1.1.11.5,devices.router1.interface.Gi0_1.ifOutUcastPkts";
         "C,router1.example.com,public,1.3.6.1.2.1.31.1.1.1.12.5,devices.router1.interface.Gi0_1.ifOutMulticastPkts";
         "C,router1.example.com,public,1.3.6.1.2.1.31.1.1.1.13.5,devices.router1.interface.Gi0_1.ifOutBroadcastPkts" ]
  /\ (forall (units : list string) (ifName ifIndex : string) (s : state),
        make_counter_desc (Fixture.router1_with units) Fixture.device
          Fixture.host Fixture.community ifName ifIndex s
        = make_counter_desc Fixture.router1 Fixture.device Fixture.host
            Fixture.community ifName ifIndex s).
Proof.
  split; [reflexivity |]. split; [reflexivity |]. split.
  - match goal with
    | |- Permutation ?built ?expected =>
        replace built with expected by (vm_compute; reflexivity)
    end.
    apply Permutation_refl.
  - intros units ifName ifIndex s. rewrite !make_counter_desc_run.
    reflexivity.
Qed.

(** C6, the code at the failing input.  Index 9 of [router1] is an accepted
    interface of type 135: whatever the list of unit labels, and so with
    the two default ones, the body builds eight records, all of them counter
    records; the count does not grow with the list.  Index 5, of type 6,
    gets its four gauge records and its eight counter records. *)
Theorem C6_type_135_counters_not_expanded :
  (forall units : list string,
      let built :=
        OIDS (snd (index_body (Fixture.router1_with units) Fixture.device
                     Fixture.host Fixture.port Fixture.community "9" blank))
      in
      List.length built = 8
      /\ Forall (fun record => String.prefix "C," record = true) built)
  /\ (let built :=
        OIDS (snd (index_body Fixture.router1 Fixture.device Fixture.host
                     Fixture.port Fixture.community "5" blank)) in
      List.length (filter (String.prefix "G,") built) = 4
      /\ List.length (filter (String.prefix "C,") built) = 8
      /\ List.length built = 12).
Proof.
  split.
  - intros units. vm_compute. split; [reflexivity | repeat constructor].
  - vm_compute. repeat split.
Qed.

(** ** Further properties of the collector *)

Lemma prefix_split (n h : string) :
  String.prefix n h = true -> exists b, h = (n ++ b)%string.
Proof.
  revert h. induction n as [|x n IH]; intros h H.
  - now exists h.
  - destruct h as [|y h]; [discriminate H |].
    simpl in H. destruct (ascii_dec x y) as [<- |]; [| discriminate H].
    destruct (IH h H) as (b & ->). now exists b.
Qed.

(** [str_in] is the test for a contiguous occurrence. *)
Lemma str_in_iff (n h : string) :
  str_in n h = true <-> exists a b, h = (a ++ n ++ b)%string.
Proof.
  split.
  - induction h as [|y h IH]; intros H.
    + cbn [str_in] in H. rewrite orb_false_r in H.
      destruct (prefix_split _ _ H) as (b & E). now exists EmptyString, b.
    + cbn [str_in] in H. apply orb_true_iff in H as [H | H].
      * destruct (prefix_split _ _ H) as (b & E). now exists EmptyString, b.
      * destruct (IH H) as (a & b & ->). now exists (String y a), b.
  - intros (a & b & ->). apply str_in_app.
Qed.

(** X1. [parse_oid_file] never raises and leaves the state as it is; a line
    of the catalog is kept exactly when the host token does not occur in it
    as a contiguous substring, wherever in the line that may be. *)
Theorem X1_purge_is_substring_match (self : Collector) (host : string)
    (s : state) :
  exists kept : list string,
    parse_oid_file self host s = (Return kept, s)
    /\ forall line : string,
         In line kept
         <-> In line (catalog_lines (disk s))
             /\ ~ (exists a b : string, line = (a ++ host ++ b)%string).
Proof.
  exists (other_lines host (disk s)). split; [apply parse_oid_file_run |].
  intros line. unfold other_lines. rewrite filter_In, negb_true_iff.
  rewrite <- str_in_iff. destruct (str_in host line); split;
    intros [Hin H]; split; try assumption; try discriminate;
    try reflexivity. now elim H.
Qed.

Lemma str_in_empty (hay : string) : str_in EmptyString hay = true.
Proof. destruct hay; reflexivity. Qed.

Lemma other_lines_empty_host (fs : filesystem) :
  other_lines EmptyString fs = [].
Proof.
  unfold other_lines. induction (catalog_lines fs) as [|l ls IH];
    [reflexivity |].
  simpl. now rewrite str_in_empty.
Qed.

(** X2. With the empty string as host, every line of the catalog contains
    the host token: [parse_oid_file] keeps nothing, and a run that returns
    leaves a file holding only the records it built. *)
Theorem X2_empty_host_purges_everything (self : Collector) (device : string)
    (port : N) (community : string) (s s' : state) :
  collect_snmp self device EmptyString port community s = (Return tt, s') ->
  parse_oid_file self EmptyString s = (Return [], s)
  /\ oidfile (disk s')
     = Some (written (discovered self device EmptyString port community)).
Proof.
  intros Hrun. rewrite parse_oid_file_run, other_lines_empty_host.
  split; [reflexivity |].
  rewrite collect_snmp_run in Hrun.
  destruct (fst (discovery self device EmptyString port community blank))
    as [[] | e]; [| discriminate Hrun].
  destruct (oidfile_writable (disk s)); [| discriminate Hrun].
  injection Hrun as <-. unfold collected; cbn [disk oidfile].
  now rewrite other_lines_empty_host.
Qed.

(** X2 at [router1] on the shared catalog: the records of [router2] are
    gone with the rest. *)
Lemma X2_witness :
  catalog_lines (disk Fixture.start) = Fixture.shared_catalog
  /\ oidfile
       (disk (snd (collect_snmp Fixture.router1 Fixture.device EmptyString
                     Fixture.port Fixture.community Fixture.start)))
     = Some (written (discovered Fixture.router1 Fixture.device EmptyString
                        Fixture.port Fixture.community)).
Proof.
  split; [vm_compute; reflexivity |].
  apply (X2_empty_host_purges_everything Fixture.router1 Fixture.device
           Fixture.port Fixture.community Fixture.start).
  vm_compute. reflexivity.
Defined.


(** X4. [collect_snmp] starts from a fresh accumulator: what [self.OIDS]
    held before the call, from an earlier run or an earlier device, has no
    part in the outcome, in the records or in the file. *)
Theorem X4_accumulator_reset (self : Collector) (device host : string)
    (port : N) (community : string) (s : state) (leftover : list string) :
  collect_snmp self device host port community
    {| OIDS := leftover; sent := sent s; disk := disk s |}
  = collect_snmp self device host port community s.
Proof.
  rewrite !collect_snmp_run. reflexivity.
Qed.

(** X5. When the initial walk raises, [get_interface_indexes] ends with that
    exception after the one WALK request: no GET is sent and no record is
    built; [collect_snmp] ends with the same exception, its accumulator
    holding the kept lines only, and the file is not written. *)
Theorem X5_walk_failure_aborts_run (self : Collector) (device host : string)
    (port : N) (community : string) (e : exn) (s : state) :
  snmp_walk self "1.3.6.1.2.1.2.2.1.1" host port community = Raise e ->
  get_interface_indexes self device host port community s
  = (Raise e,
     {| OIDS := OIDS s;
        sent := sent s ++ [WALK "1.3.6.1.2.1.2.2.1.1" host port community];
        disk := disk s |})
  /\ collect_snmp self device host port community s
     = (Raise e,
        {| OIDS := other_lines host (disk s);
           sent := sent s
                   ++ [WALK "1.3.6.1.2.1.2.2.1.1" host port community];
           disk := disk s |}).
Proof.
  intros HW.
  assert (Henum : forall t,
             get_interface_indexes self device host port community t
             = (Raise e,
                {| OIDS := OIDS t;
                   sent := sent t
                           ++ [WALK "1.3.6.1.2.1.2.2.1.1" host port
                                 community];
                   disk := disk t |})).
  { intros t. unfold get_interface_indexes.
    change (join "." [IF_MIB_INDEX_OID]) with "1.3.6.1.2.1.2.2.1.1".
    unfold bind. rewrite walk_run, HW. unfold grow.
    now rewrite app_nil_r. }
  split; [apply Henum |].
  rewrite collect_snmp_run. unfold collected, discovered, discovery, bind.
  rewrite Henum. cbn [fst snd OIDS sent blank app].
  now rewrite app_nil_r.
Qed.

Lemma X5_witness :
  collect_snmp Fixture.unreachable Fixture.device Fixture.host Fixture.port
    Fixture.community Fixture.start
  = (Raise TransportError,
     {| OIDS := other_lines Fixture.host (disk Fixture.start);
        sent := [WALK "1.3.6.1.2.1.2.2.1.1" Fixture.host Fixture.port
                   Fixture.community];
        disk := disk Fixture.start |}).
Proof.
  apply (X5_walk_failure_aborts_run Fixture.unreachable Fixture.device
           Fixture.host Fixture.port Fixture.community TransportError
           Fixture.start).
  reflexivity.
Defined.

(** [get_environment_oid] either appends one of the three CPU records or
    raises without appending; in both cases it has sent the one GET. *)
Lemma get_environment_oid_cases (self : Collector) (device host : string)
    (port : N) (community : string) :
  (exists (vendorData : dict) (vendorHexString cpu : string),
      snmp_get self VENDOR_DESC_OID host port community = Return vendorData
      /\ lookup vendorData VENDOR_DESC_OID = Some vendorHexString
      /\ In cpu (cpu_records device host community)
      /\ forall s,
           get_environment_oid self device host port community s
           = (Return tt,
              grow s [cpu] [GET VENDOR_DESC_OID host port community]))
  \/ (exists e : exn,
        (snmp_get self VENDOR_DESC_OID host port community = Raise e
         \/ exists vendorData,
              snmp_get self VENDOR_DESC_OID host port community
              = Return vendorData
              /\ lookup vendorData VENDOR_DESC_OID = None
              /\ e = KeyError VENDOR_DESC_OID)
        /\ forall s,
             get_environment_oid self device host port community s
             = (Raise e,
                grow s [] [GET VENDOR_DESC_OID host port community])).
Proof.
  unfold get_environment_oid.
  destruct (snmp_get self VENDOR_DESC_OID host port community)
    as [vendorData | e] eqn:HG.
  - destruct (lookup vendorData VENDOR_DESC_OID) as [v |] eqn:LV.
    + left. exists vendorData, v.
      destruct (str_in "494f532d5845" v) eqn:XE;
        [| destruct (str_in "436973636f" v) eqn:CI];
        eexists; (split; [first [reflexivity | exact HG] |]);
        (split; [first [reflexivity | exact LV] |]);
        (split;
         [| intros s; unfold bind at 1; rewrite get_run, HG;
            unfold bind at 1, getitem at 1; rewrite LV; unfold ret at 1;
            rewrite ?XE, ?CI; unfold OIDS_append, grow; simpl;
            rewrite app_nil_r; reflexivity]);
        unfold cpu_records; simpl; tauto.
    + right. exists (KeyError VENDOR_DESC_OID). split.
      * right. exists vendorData. now repeat split.
      * intros s. unfold bind at 1. rewrite get_run, HG.
        unfold bind at 1, getitem at 1. rewrite LV. reflexivity.
  - right. exists e. split; [now left |].
    intros s. unfold bind at 1. rewrite get_run, HG. reflexivity.
Qed.

(** X6. On a device whose interface table is empty the walk is the only
    request of the enumeration, and a run that can write leaves the kept
    lines followed by the single CPU record: two requests in all. *)
Theorem X6_empty_interface_table (self : Collector) (device host : string)
    (port : N) (community : string) (ifIndexData vendorData : dict)
    (vendorHexString : string) (s : state) :
  snmp_walk self "1.3.6.1.2.1.2.2.1.1" host port community
  = Return ifIndexData ->
  values ifIndexData = [] ->
  snmp_get self "1.3.6.1.2.1.1.1.0" host port community = Return vendorData ->
  lookup vendorData "1.3.6.1.2.1.1.1.0" = Some vendorHexString ->
  oidfile_writable (disk s) = true ->
  exists cpu : string,
    In cpu (cpu_records device host community)
    /\ collect_snmp self device host port community s
       = (Return tt,
          {| OIDS := other_lines host (disk s) ++ [cpu];
             sent := sent s
                     ++ [WALK "1.3.6.1.2.1.2.2.1.1" host port community;
                         GET "1.3.6.1.2.1.1.1.0" host port community];
             disk := {| oidfile :=
                          Some (written (other_lines host (disk s)
                                         ++ [cpu]));
                        oidfile_writable := true |} |}).
Proof.
  intros HW Hempty HG LV Hw.
  destruct (get_environment_oid_cases self device host port community)
    as [(vd & v & cpu & HG' & LV' & Hcpu & Hrun)
       | (e & [HG' | (vd & HG' & LV' & _)] & _)];
    change VENDOR_DESC_OID with "1.3.6.1.2.1.1.1.0" in *;
    try congruence.
  exists cpu. split; [exact Hcpu |].
  assert (Hdisc : discovery self device host port community blank
                  = (Return tt,
                     grow blank [cpu]
                       [WALK "1.3.6.1.2.1.2.2.1.1" host port community;
                        GET "1.3.6.1.2.1.1.1.0" host port community])).
  { unfold discovery, get_interface_indexes.
    change (join "." [IF_MIB_INDEX_OID]) with "1.3.6.1.2.1.2.2.1.1".
    unfold bind at 1 2. rewrite walk_run, HW, Hempty. cbn [for_each].
    unfold ret at 1. rewrite Hrun, grow_grow. reflexivity. }
  rewrite collect_snmp_run. unfold collected, discovered.
  rewrite Hdisc, Hw. reflexivity.
Qed.

Lemma X6_witness :
  exists cpu : string,
    In cpu (cpu_records Fixture.device Fixture.host Fixture.community)
    /\ oidfile
         (disk (snd (collect_snmp Fixture.bare Fixture.device Fixture.host
                       Fixture.port Fixture.community Fixture.start)))
       = Some (written (other_lines Fixture.host (disk Fixture.start)
                        ++ [cpu])).
Proof.
  destruct (X6_empty_interface_table Fixture.bare Fixture.device Fixture.host
              Fixture.port Fixture.community []
              [("1.3.6.1.2.1.1.1.0", "4c696e7578")] "4c696e7578"
              Fixture.start eq_refl eq_refl eq_refl eq_refl eq_refl)
    as (cpu & Hcpu & Hrun).
  exists cpu. split; [exact Hcpu |]. rewrite Hrun. reflexivity.
Defined.

(** X7. When the description GET raises, or its reply lacks the description
    OID, after an interface walk that went through, [collect_snmp] ends with
    that exception (a [KeyError] in the second case): the interface records
    of this run are in the accumulator but not in the file, which stays as
    it was. *)
Theorem X7_description_failure_discards_run (self : Collector)
    (device host : string) (port : N) (community : string) (e : exn)
    (s : state) :
  fst (get_interface_indexes self device host port community blank)
  = Return tt ->
  (snmp_get self "1.3.6.1.2.1.1.1.0" host port community = Raise e
   \/ exists vendorData,
        snmp_get self "1.3.6.1.2.1.1.1.0" host port community
        = Return vendorData
        /\ lookup vendorData "1.3.6.1.2.1.1.1.0" = None
        /\ e = KeyError "1.3.6.1.2.1.1.1.0") ->
  exists s',
    collect_snmp self device host port community s = (Raise e, s')
    /\ OIDS s'
       = other_lines host (disk s)
         ++ interface_records self device host port community
    /\ disk s' = disk s.
Proof.
  intros Henum Hfail.
  destruct (get_environment_oid_cases self device host port community)
    as [(vd & v & cpu & HG' & LV' & _)
       | (e' & Hfail' & Hrun)];
    change VENDOR_DESC_OID with "1.3.6.1.2.1.1.1.0" in *.
  - destruct Hfail as [HG | (vd' & HG & LV & _)]; congruence.
  - assert (e' = e) as ->.
    { destruct Hfail as [HG | (vd & HG & LV & ->)];
        destruct Hfail' as [HG' | (vd' & HG' & LV' & ->)]; congruence. }
    rewrite collect_snmp_run.
    unfold collected, discovered, interface_records, discovery, bind.
    destruct (get_interface_indexes self device host port community blank)
      as [o b]. cbn [fst] in Henum. subst o. rewrite Hrun. cbn [fst snd].
    eexists. split; [reflexivity |]. cbn [OIDS disk grow].
    now rewrite app_nil_r.
Qed.

Lemma X7_witness :
  exists s',
    collect_snmp Fixture.mute Fixture.device Fixture.host Fixture.port
      Fixture.community Fixture.start
    = (Raise (KeyError "1.3.6.1.2.1.1.1.0"), s')
    /\ List.length (OIDS s') = 10
    /\ disk s' = disk Fixture.start.
Proof.
  destruct (X7_description_failure_discards_run Fixture.mute Fixture.device
              Fixture.host Fixture.port Fixture.community
              (KeyError "1.3.6.1.2.1.1.1.0") Fixture.start eq_refl
              (or_intror (ex_intro _ [] (conj eq_refl
                                           (conj eq_refl eq_refl)))))
    as (s' & Hrun & Hoids & Hdisk).
  exists s'. split; [exact Hrun |]. split; [| exact Hdisk].
  rewrite Hoids. reflexivity.
Defined.

(** X8. The records of a discovery that went through are the interface
    records followed by exactly one CPU record, one of the three the
    classification knows: the CPU record is the last line of the file. *)
Theorem X8_cpu_record_is_last (self : Collector) (device host : string)
    (port : N) (community : string) :
  fst (discovery self device host port community blank) = Return tt ->
  exists cpu : string,
    In cpu (cpu_records device host community)
    /\ discovered self device host port community
       = interface_records self device host port community ++ [cpu].
Proof.
  unfold discovered, interface_records, discovery, bind.
  destruct (get_interface_indexes self device host port community blank)
    as [[[] | e] b]; [| discriminate].
  destruct (get_environment_oid_cases self device host port community)
    as [(vd & v & cpu & _ & _ & Hcpu & Hrun) | (e & _ & Hrun)];
    rewrite Hrun; cbn [fst snd]; [| discriminate].
  intros _. exists cpu. split; [exact Hcpu | reflexivity].
Qed.

Lemma X8_witness :
  exists cpu : string,
    In cpu (cpu_records Fixture.device Fixture.host Fixture.community)
    /\ discovered Fixture.router1 Fixture.device Fixture.host Fixture.port
         Fixture.community
       = interface_records Fixture.router1 Fixture.device Fixture.host
           Fixture.port Fixture.community ++ [cpu].
Proof.
  apply (X8_cpu_record_is_last Fixture.router1 Fixture.device Fixture.host
           Fixture.port Fixture.community).
  reflexivity.
Defined.

(** X9. A GET reply that lacks the OID asked for is not handled: the lookup
    raises [KeyError] with that OID as key, and the body ends there without
    a record.  This holds for the type, for the status of an interface of
    accepted type, and for the name of an accepted interface. *)
Theorem X9_missing_key_raises (self : Collector) (device host : string)
    (port : N) (community ifIndex key : string) (s : state) :
  reply_lacks_key self host port community ifIndex key ->
  exists reqs : list request,
    index_body self device host port community ifIndex s
    = (Raise (KeyError key),
       {| OIDS := OIDS s; sent := sent s ++ reqs; disk := disk s |}).
Proof.
  unfold reply_lacks_key.
  intros (dT & dS & HT & HS
          & [[LT ->]
            | (ifType & LT & IT
               & [[LS ->]
                 | (ifStatus & dN & LS & IS & HN & LN & ->)])]);
    unfold index_body;
    unfold bind at 1; rewrite get_run, HT;
    unfold bind at 1; rewrite get_run, HS;
    unfold bind at 1, getitem at 1; rewrite LT.
  - unfold raise. rewrite grow_grow. eexists. unfold grow.
    now rewrite app_nil_r.
  - apply list_in_In in IT. unfold ret at 1.
    unfold bind at 1. rewrite IT. cbn [negb].
    unfold bind at 1, getitem at 1. rewrite LS.
    unfold raise. rewrite grow_grow. eexists. unfold grow.
    now rewrite app_nil_r.
  - apply list_in_In in IT, IS. unfold ret at 1.
    unfold bind at 1. rewrite IT. cbn [negb].
    unfold bind at 1, getitem at 1. rewrite LS. unfold ret at 1 2.
    rewrite IS. cbn [negb].
    unfold bind at 1. rewrite get_run, HN.
    unfold bind at 1, getitem at 1. rewrite LN.
    unfold raise. rewrite !grow_grow. eexists. unfold grow.
    now rewrite app_nil_r.
Qed.

(** X9 at index 99 of [router1], which the agent does not know: the type
    reply is empty. *)
Lemma X9_witness :
  exists reqs : list request,
    index_body Fixture.router1 Fixture.device Fixture.host Fixture.port
      Fixture.community "99" blank
    = (Raise (KeyError "1.3.6.1.2.1.2.2.1.3.99"),
       {| OIDS := []; sent := [] ++ reqs; disk := disk blank |}).
Proof.
  apply (X9_missing_key_raises Fixture.router1 Fixture.device Fixture.host
           Fixture.port Fixture.community "99" "1.3.6.1.2.1.2.2.1.3.99"
           blank).
  exists [], []. split; [reflexivity |]. split; [reflexivity |].
  left. split; reflexivity.
Defined.

(** Every way through the body of the loop: it raises before any record is
    appended, or it returns with no record, with the eight counter records,
    or with the four gauge records followed by the eight counter records. *)
Lemma index_body_cases (self : Collector) (device host : string)
    (port : N) (community ifIndex : string) :
  exists (o : outcome unit) (built : list string) (reqs : list request),
    (forall s,
        index_body self device host port community ifIndex s
        = (o, grow s built reqs))
    /\ match o with
       | Raise _ => built = []
       | Return _ =>
           built = []
           \/ (exists ifName,
                 built
                 = map (counter_line self device host community ifName
                          ifIndex) IF_MIB_COUNTER_OID_TABLE)
           \/ (exists ifName,
                 built
                 = map (gauge_line self device host community ifName ifIndex)
                       IF_MIB_GAUGE_OID_TABLE
                   ++ map (counter_line self device host community ifName
                             ifIndex) IF_MIB_COUNTER_OID_TABLE)
       end.
Proof.
  unfold index_body.
  set (T := join "." [IF_MIB_TYPE_OID; ifIndex]).
  set (S := join "." [IF_MIB_STATUS_OID; ifIndex]).
  set (N := join "." [IF_MIB_NAME_OID; ifIndex]).
  destruct (snmp_get self T host port community) as [dT | e] eqn:HT.
  2:{ exists (Raise e), [], [GET T host port community].
      split; [| reflexivity]. intros s.
      unfold bind at 1. now rewrite get_run, HT. }
  destruct (snmp_get self S host port community) as [dS | e] eqn:HS.
  2:{ exists (Raise e), [],
        [GET T host port community; GET S host port community].
      split; [| reflexivity]. intros s.
      unfold bind at 1. rewrite get_run, HT.
      unfold bind at 1. now rewrite get_run, HS, grow_grow. }
  destruct (lookup dT T) as [ifType |] eqn:LT.
  2:{ exists (Raise (KeyError T)), [],
        [GET T host port community; GET S host port community].
      split; [| reflexivity]. intros s.
      unfold bind at 1. rewrite get_run, HT.
      unfold bind at 1. rewrite get_run, HS.
      unfold bind at 1, getitem at 1. now rewrite LT, grow_grow. }
  destruct (list_in ifType IF_TYPES) eqn:IT.
  2:{ exists (Return tt), [],
        [GET T host port community; GET S host port community].
      split; [| now left]. intros s.
      unfold bind at 1. rewrite get_run, HT.
      unfold bind at 1. rewrite get_run, HS.
      unfold bind at 1, getitem at 1. rewrite LT. unfold ret at 1.
      unfold bind at 1. rewrite IT. cbn [negb]. now rewrite grow_grow. }
  destruct (lookup dS S) as [ifStatus |] eqn:LS.
  2:{ exists (Raise (KeyError S)), [],
        [GET T host port community; GET S host port community].
      split; [| reflexivity]. intros s.
      unfold bind at 1. rewrite get_run, HT.
      unfold bind at 1. rewrite get_run, HS.
      unfold bind at 1, getitem at 1. rewrite LT. unfold ret at 1.
      unfold bind at 1. rewrite IT. cbn [negb].
      unfold bind at 1, getitem at 1. now rewrite LS, grow_grow. }
  destruct (list_in ifStatus IF_STATUS) eqn:IS.
  2:{ exists (Return tt), [],
        [GET T host port community; GET S host port community].
      split; [| now left]. intros s.
      unfold bind at 1. rewrite get_run, HT.
      unfold bind at 1. rewrite get_run, HS.
      unfold bind at 1, getitem at 1. rewrite LT. unfold ret at 1.
      unfold bind at 1. rewrite IT. cbn [negb].
      unfold bind at 1, getitem at 1. rewrite LS. unfold ret at 1 2.
      rewrite IS. cbn [negb]. now rewrite grow_grow. }
  destruct (snmp_get self N host port community) as [dN | e] eqn:HN.
  2:{ exists (Raise e), [],
        [GET T host port community; GET S host port community;
         GET N host port community].
      split; [| reflexivity]. intros s.
      unfold bind at 1. rewrite get_run, HT.
      unfold bind at 1. rewrite get_run, HS.
      unfold bind at 1, getitem at 1. rewrite LT. unfold ret at 1.
      unfold bind at 1. rewrite IT. cbn [negb].
      unfold bind at 1, getitem at 1. rewrite LS. unfold ret at 1 2.
      rewrite IS. cbn [negb].
      unfold bind at 1. now rewrite get_run, HN, !grow_grow. }
  destruct (lookup dN N) as [raw |] eqn:LN.
  2:{ exists (Raise (KeyError N)), [],
        [GET T host port community; GET S host port community;
         GET N host port community].
      split; [| reflexivity]. intros s.
      unfold bind at 1. rewrite get_run, HT.
      unfold bind at 1. rewrite get_run, HS.
      unfold bind at 1, getitem at 1. rewrite LT. unfold ret at 1.
      unfold bind at 1. rewrite IT. cbn [negb].
      unfold bind at 1, getitem at 1. rewrite LS. unfold ret at 1 2.
      rewrite IS. cbn [negb].
      unfold bind at 1. rewrite get_run, HN.
      unfold bind at 1, getitem at 1. now rewrite LN, !grow_grow. }
  apply list_in_In in IT, IS.
  eexists (Return tt), _, _. split.
  - intros s.
    apply (index_body_accepted self device host port community ifIndex
             dT dS dN ifType ifStatus raw s HT HS HN LT LS LN IT IS).
  - right. destruct (String.eqb ifType "135"); [left | right];
      exists (re_sub_quote EmptyString raw); reflexivity.
Qed.

(** X10. An interface index is all or nothing.  The body of the loop never
    touches the disk and only appends: when it raises it has appended no
    record, and when it returns it has appended none, eight or twelve. *)
Theorem X10_index_all_or_nothing (self : Collector) (device host : string)
    (port : N) (community ifIndex : string) (s : state) :
  let r := index_body self device host port community ifIndex s in
  exists built : list string,
    OIDS (snd r) = OIDS s ++ built
    /\ disk (snd r) = disk s
    /\ match fst r with
       | Raise _ => built = []
       | Return _ =>
           List.length built = 0 \/ List.length built = 8
           \/ List.length built = 12
       end.
Proof.
  cbv zeta.
  destruct (index_body_cases self device host port community ifIndex)
    as (o & built & reqs & Hrun & Hbuilt).
  rewrite Hrun. exists built. cbn [fst snd grow OIDS disk].
  split; [reflexivity |]. split; [reflexivity |].
  destruct o as [[] | e]; [| exact Hbuilt].
  destruct Hbuilt as [-> | [(ifName & ->) | (ifName & ->)]];
    [left | right; left | right; right]; reflexivity.
Qed.

Lemma index_body_run (self : Collector) (device host : string) (port : N)
    (community ifIndex : string) (s : state) :
  index_body self device host port community ifIndex s
  = (fst (index_body self device host port community ifIndex blank),
     grow s (index_records self device host port community ifIndex)
       (sent (snd (index_body self device host port community ifIndex
                     blank)))).
Proof.
  apply (appends_run _ _ (appends_index_body self device host port community
                            ifIndex)).
Qed.

Lemma index_records_raise (self : Collector) (device host : string)
    (port : N) (community ifIndex : string) (e : exn) :
  fst (index_body self device host port community ifIndex blank) = Raise e ->
  index_records self device host port community ifIndex = [].
Proof.
  unfold index_records.
  destruct (index_body_cases self device host port community ifIndex)
    as (o & built & reqs & Hrun & Hbuilt).
  rewrite Hrun. cbn [fst snd grow OIDS blank app]. intros ->. exact Hbuilt.
Qed.

(** The loop over indices whose bodies all return. *)
Lemma for_each_index_return (self : Collector) (device host : string)
    (port : N) (community : string) (indexes : list string) :
  Forall (fun i =>
            fst (index_body self device host port community i blank)
            = Return tt) indexes ->
  forall s, exists reqs,
    for_each indexes (index_body self device host port community) s
    = (Return tt,
       grow s
         (concat (map (index_records self device host port community)
                      indexes))
         reqs).
Proof.
  induction 1 as [|i indexes Hi _ IH]; intros s.
  - exists []. cbn. now rewrite grow_nil.
  - cbn [for_each map concat]. unfold bind at 1.
    rewrite index_body_run, Hi.
    destruct (IH (grow s (index_records self device host port community i)
                    (sent (snd (index_body self device host port community
                                  i blank)))))
      as (reqs & ->).
    rewrite grow_grow. eauto.
Qed.

(** X11. When the body returns for every index of the walk, the enumeration
    returns, and its records are those of the indices one after the other,
    in the order of the walk: an index processed earlier has no influence
    on the records of a later one, and an index listed twice gets its
    records twice. *)
Theorem X11_enumeration_concatenates (self : Collector)
    (device host : string) (port : N) (community : string)
    (ifIndexData : dict) (s : state) :
  snmp_walk self "1.3.6.1.2.1.2.2.1.1" host port community
  = Return ifIndexData ->
  Forall (fun ifIndex =>
            fst (index_body self device host port community ifIndex blank)
            = Return tt) (values ifIndexData) ->
  exists s',
    get_interface_indexes self device host port community s = (Return tt, s')
    /\ OIDS s'
       = OIDS s
         ++ concat (map (index_records self device host port community)
                        (values ifIndexData))
    /\ disk s' = disk s.
Proof.
  intros HW Hall. unfold get_interface_indexes.
  change (join "." [IF_MIB_INDEX_OID]) with "1.3.6.1.2.1.2.2.1.1".
  unfold bind at 1. rewrite walk_run, HW.
  destruct (for_each_index_return self device host port community
              (values ifIndexData) Hall
              (grow s [] [WALK "1.3.6.1.2.1.2.2.1.1" host port community]))
    as (reqs & ->).
  eexists. split; [reflexivity |]. cbn [grow OIDS disk].
  now rewrite app_nil_r.
Qed.

Lemma X11_witness :
  exists s',
    get_interface_indexes Fixture.router1 Fixture.device Fixture.host
      Fixture.port Fixture.community Fixture.start
    = (Return tt, s')
    /\ OIDS s'
       = index_records Fixture.router1 Fixture.device Fixture.host
           Fixture.port Fixture.community "5"
         ++ index_records Fixture.router1 Fixture.device Fixture.host
              Fixture.port Fixture.community "9"
    /\ disk s' = disk Fixture.start.
Proof.
  destruct (X11_enumeration_concatenates Fixture.router1 Fixture.device
              Fixture.host Fixture.port Fixture.community
              [ ("1.3.6.1.2.1.2.2.1.1.5", "5");
                ("1.3.6.1.2.1.2.2.1.1.7", "7");
                ("1.3.6.1.2.1.2.2.1.1.9", "9");
                ("1.3.6.1.2.1.2.2.1.1.11", "11") ]
              Fixture.start eq_refl)
    as (s' & Hrun & Hoids & Hdisk).
  - repeat constructor.
  - exists s'. split; [exact Hrun |]. split; [| exact Hdisk].
    rewrite Hoids. vm_compute. reflexivity.
Defined.

(** X12. The enumeration stops at the first index whose body raises,
    whatever the exception, a [KeyError] as well as an error of the SNMP
    layer: it ends with that exception, holding the records of the indices
    before it and none of that index or of a later one. *)
Theorem X12_enumeration_stops_at_first_exception (self : Collector)
    (device host : string) (port : N) (community : string)
    (ifIndexData : dict) (pre : list string) (ifIndex : string)
    (post : list string) (e : exn) (s : state) :
  snmp_walk self "1.3.6.1.2.1.2.2.1.1" host port community
  = Return ifIndexData ->
  values ifIndexData = pre ++ ifIndex :: post ->
  Forall (fun i =>
            fst (index_body self device host port community i blank)
            = Return tt) pre ->
  fst (index_body self device host port community ifIndex blank) = Raise e ->
  exists s',
    get_interface_indexes self device host port community s = (Raise e, s')
    /\ OIDS s'
       = OIDS s
         ++ concat (map (index_records self device host port community) pre)
    /\ disk s' = disk s.
Proof.
  intros HW Hvalues Hpre Hraise. unfold get_interface_indexes.
  change (join "." [IF_MIB_INDEX_OID]) with "1.3.6.1.2.1.2.2.1.1".
  unfold bind at 1. rewrite walk_run, HW, Hvalues, for_each_app.
  unfold bind at 1.
  destruct (for_each_index_return self device host port community pre Hpre
              (grow s [] [WALK "1.3.6.1.2.1.2.2.1.1" host port community]))
    as (reqs & ->).
  cbn [for_each]. unfold bind at 1.
  rewrite index_body_run, Hraise,
    (index_records_raise self device host port community ifIndex e Hraise).
  eexists. split; [reflexivity |]. cbn [grow OIDS disk].
  now rewrite !app_nil_r.
Qed.

(** X12 at [ghost]: the eight records of index 9 are built, index 99 raises
    a [KeyError] for its type OID, and index 5 is never asked about. *)
Lemma X12_witness :
  exists s',
    get_interface_indexes Fixture.ghost Fixture.device Fixture.host
      Fixture.port Fixture.community blank
    = (Raise (KeyError "1.3.6.1.2.1.2.2.1.3.99"), s')
    /\ OIDS s'
       = index_records Fixture.ghost Fixture.device Fixture.host
           Fixture.port Fixture.community "9"
    /\ disk s' = disk blank.
Proof.
  destruct (X12_enumeration_stops_at_first_exception Fixture.ghost
              Fixture.device Fixture.host Fixture.port Fixture.community
              [ ("1.3.6.1.2.1.2.2.1.1.9", "9");
                ("1.3.6.1.2.1.2.2.1.1.99", "99");
                ("1.3.6.1.2.1.2.2.1.1.5", "5") ]
              ["9"] "99" ["5"] (KeyError "1.3.6.1.2.1.2.2.1.3.99") blank
              eq_refl eq_refl)
    as (s' & Hrun & Hoids & Hdisk).
  - repeat constructor.
  - reflexivity.
  - exists s'. split; [exact Hrun |]. split; [| exact Hdisk].
    rewrite Hoids. vm_compute. reflexivity.
Defined.

(** X13. An interface whose type is one of 6, 135, 131 and whose status is
    1 costs three GETs and never raises once the name is there: it gets the
    eight counter records, preceded by the four gauge records unless its
    type is 135, all built from the reported name with its quotes
    deleted. *)
Theorem X13_accepted_interface_records (self : Collector)
    (device host : string) (port : N) (community ifIndex : string)
    (ifTypeData ifStatusData ifNameData : dict)
    (ifType ifStatus raw : string) (s : state) :
  snmp_get self ("1.3.6.1.2.1.2.2.1.3." ++ ifIndex) host port community
  = Return ifTypeData ->
  snmp_get self ("1.3.6.1.2.1.2.2.1.8." ++ ifIndex) host port community
  = Return ifStatusData ->
  snmp_get self ("1.3.6.1.2.1.31.1.1.1.1." ++ ifIndex) host port community
  = Return ifNameData ->
  lookup ifTypeData ("1.3.6.1.2.1.2.2.1.3." ++ ifIndex) = Some ifType ->
  lookup ifStatusData ("1.3.6.1.2.1.2.2.1.8." ++ ifIndex) = Some ifStatus ->
  lookup ifNameData ("1.3.6.1.2.1.31.1.1.1.1." ++ ifIndex) = Some raw ->
  In ifType ["6"; "135"; "131"] ->
  ifStatus = "1" ->
  let ifName := re_sub_quote EmptyString raw in
  index_body self device host port community ifIndex s
  = (Return tt,
     {| OIDS :=
          OIDS s
          ++ (if String.eqb ifType "135" then []
              else map (gauge_line self device host community ifName ifIndex)
                       IF_MIB_GAUGE_OID_TABLE)
          ++ map (counter_line self device host community ifName ifIndex)
                 IF_MIB_COUNTER_OID_TABLE;
        sent :=
          sent s
          ++ [GET ("1.3.6.1.2.1.2.2.1.3." ++ ifIndex) host port community;
              GET ("1.3.6.1.2.1.2.2.1.8." ++ ifIndex) host port community;
              GET ("1.3.6.1.2.1.31.1.1.1.1." ++ ifIndex) host port
                community];
        disk := disk s |}).
Proof.
  intros HT HS HN LT LS LN IT IS ifName.
  apply (index_body_accepted self device host port community ifIndex
           ifTypeData ifStatusData ifNameData ifType ifStatus raw s
           HT HS HN LT LS LN IT).
  subst ifStatus. now left.
Qed.

(** X13 at index 9 of [router1], of type 135. *)
Lemma X13_witness :
  OIDS (snd (index_body Fixture.router1 Fixture.device Fixture.host
               Fixture.port Fixture.community "9" blank))
  = map (counter_line Fixture.router1 Fixture.device Fixture.host
           Fixture.community "Vl10" "9") IF_MIB_COUNTER_OID_TABLE.
Proof.
  rewrite (X13_accepted_interface_records Fixture.router1 Fixture.device
             Fixture.host Fixture.port Fixture.community "9"
             [("1.3.6.1.2.1.2.2.1.3.9", "135")]
             [("1.3.6.1.2.1.2.2.1.8.9", "1")]
             [("1.3.6.1.2.1.31.1.1.1.1.9", "Vl10")]
             "135" "1" "Vl10" blank
             eq_refl eq_refl eq_refl eq_refl eq_refl eq_refl
             (or_intror (or_introl eq_refl)) eq_refl).
  reflexivity.
Defined.

(** X14. What one run writes, the next run reads: after the write of lines
    that hold no line terminator, [parse_oid_file] returns those lines, in
    order, less the ones that contain the host token. *)
Theorem X14_catalog_round_trip (self : Collector) (host : string)
    (lines : list string) (s : state) :
  Forall (fun line => no_break line = true) lines ->
  oidfile_writable (disk s) = true ->
  let s1 := snd (write_oidfile lines s) in
  fst (write_oidfile lines s) = Return tt
  /\ parse_oid_file self host s1
     = (Return (filter (fun item => negb (str_in host item)) lines), s1).
Proof.
  intros Hclean Hw s1. subst s1. unfold write_oidfile. rewrite Hw.
  split; [reflexivity |]. cbn [snd].
  rewrite parse_oid_file_run. unfold other_lines, catalog_lines.
  cbn [disk oidfile]. now rewrite (splitlines_written_clean _ Hclean).
Qed.

Lemma X14_witness :
  parse_oid_file Fixture.router1 "router3.example.com"
    (snd (write_oidfile Fixture.shared_catalog blank))
  = (Return Fixture.shared_catalog,
     snd (write_oidfile Fixture.shared_catalog blank)).
Proof.
  destruct (X14_catalog_round_trip Fixture.router1 "router3.example.com"
              Fixture.shared_catalog blank) as [_ Hread].
  - repeat constructor.
  - reflexivity.
  - exact Hread.
Defined.

(** ** Invariants of the lines appended and the requests sent *)

Section Effects.
Variable P : string -> Prop.
Variable Q : request -> Prop.

Lemma effects_ret {A} (a : A) : effects P Q (ret a).
Proof.
  exists (Return a), [], []. repeat split; try constructor.
  intros s. now rewrite grow_nil.
Qed.

Lemma effects_raise {A} (e : exn) : effects P Q (@raise A e).
Proof.
  exists (Raise e), [], []. repeat split; try constructor.
  intros s. now rewrite grow_nil.
Qed.

Lemma effects_lift {A} (o : outcome A) : effects P Q (lift o).
Proof.
  exists o, [], []. repeat split; try constructor.
  intros s. now rewrite grow_nil.
Qed.

Lemma effects_getitem (d : dict) (k : string) : effects P Q (getitem d k).
Proof.
  unfold getitem. destruct (lookup d k);
    [apply effects_ret | apply effects_raise].
Qed.

Lemma effects_OIDS_append (line : string) :
  P line -> effects P Q (OIDS_append line).
Proof.
  intros HP. exists (Return tt), [line], [].
  repeat split; try (repeat constructor; assumption).
  intros s. unfold OIDS_append, grow. now rewrite app_nil_r.
Qed.

Lemma effects_send (r : request) : Q r -> effects P Q (send r).
Proof.
  intros HQ. exists (Return tt), [], [r].
  repeat split; try (repeat constructor; assumption).
  intros s. unfold send, grow. now rewrite app_nil_r.
Qed.

(** Sequencing, where the continuation need only behave on the value that
    the first computation returns. *)
Lemma effects_bind_returned {A B} (m : M A) (k : A -> M B) :
  effects P Q m ->
  (forall a, fst (m blank) = Return a -> effects P Q (k a)) ->
  effects P Q (bind m k).
Proof.
  intros (o & l1 & r1 & P1 & Q1 & Hm) Hk. destruct o as [a | e].
  - destruct (Hk a) as (o & l2 & r2 & P2 & Q2 & Hka);
      [now rewrite Hm |].
    exists o, (l1 ++ l2), (r1 ++ r2). repeat split.
    + apply Forall_app. now split.
    + apply Forall_app. now split.
    + intros s. unfold bind. now rewrite Hm, Hka, grow_grow.
  - exists (Raise e), l1, r1. repeat split; try assumption.
    intros s. unfold bind. now rewrite Hm.
Qed.

Lemma effects_bind {A B} (m : M A) (k : A -> M B) :
  effects P Q m -> (forall a, effects P Q (k a)) -> effects P Q (bind m k).
Proof.
  intros Hm Hk. apply effects_bind_returned; [exact Hm | intros a _; apply Hk].
Qed.

Lemma effects_for_each {A} (l : list A) (body : A -> M unit) :
  (forall x, In x l -> effects P Q (body x)) ->
  effects P Q (for_each l body).
Proof.
  induction l as [|x l IH]; intros Hbody; simpl.
  - apply effects_ret.
  - apply effects_bind; [apply Hbody; now left |].
    intros _. apply IH. intros y Hy. apply Hbody. now right.
Qed.

Lemma effects_get (self : Collector) (oid host : string) (port : N)
    (community : string) :
  Q (GET oid host port community) ->
  effects P Q (get self oid host port community).
Proof.
  intros HQ. unfold get. apply effects_bind;
    [now apply effects_send | intros _; apply effects_lift].
Qed.

Lemma effects_walk (self : Collector) (oid host : string) (port : N)
    (community : string) :
  Q (WALK oid host port community) ->
  effects P Q (walk self oid host port community).
Proof.
  intros HQ. unfold walk. apply effects_bind;
    [now apply effects_send | intros _; apply effects_lift].
Qed.

Lemma effects_make_gauge_desc (self : Collector)
    (device host community ifName ifIndex : string) :
  (forall e, In e IF_MIB_GAUGE_OID_TABLE ->
             P (gauge_line self device host community ifName ifIndex e)) ->
  effects P Q (make_gauge_desc self device host community ifName ifIndex).
Proof.
  intros HP. eexists _, _, _. split; [| split; [constructor |]].
  2: intros s; apply make_gauge_desc_run.
  apply Forall_forall. intros l Hl. apply in_map_iff in Hl as (e & <- & He).
  now apply HP.
Qed.

Lemma effects_make_counter_desc (self : Collector)
    (device host community ifName ifIndex : string) :
  (forall e, In e IF_MIB_COUNTER_OID_TABLE ->
             P (counter_line self device host community ifName ifIndex e)) ->
  effects P Q (make_counter_desc self device host community ifName ifIndex).
Proof.
  intros HP. eexists _, _, _. split; [| split; [constructor |]].
  2: intros s; apply make_counter_desc_run.
  apply Forall_forall. intros l Hl. apply in_map_iff in Hl as (e & <- & He).
  now apply HP.
Qed.

Lemma effects_index_body (self : Collector) (device host : string)
    (port : N) (community ifIndex : string) :
  (forall oid, Q (GET oid host port community)) ->
  (forall ifName e,
      In e IF_MIB_GAUGE_OID_TABLE ->
      P (gauge_line self device host community ifName ifIndex e)) ->
  (forall ifName e,
      In e IF_MIB_COUNTER_OID_TABLE ->
      P (counter_line self device host community ifName ifIndex e)) ->
  effects P Q (index_body self device host port community ifIndex).
Proof.
  intros HQ HG HC. unfold index_body.
  apply effects_bind; [now apply effects_get | intros ifTypeData].
  apply effects_bind; [now apply effects_get | intros ifStatusData].
  apply effects_bind; [apply effects_getitem | intros ifType].
  apply effects_bind.
  - destruct (negb _); [apply effects_ret |].
    apply effects_bind; [apply effects_getitem | intros; apply effects_ret].
  - intros [|]; [apply effects_ret |].
    apply effects_bind; [now apply effects_get | intros ifNameData].
    apply effects_bind; [apply effects_getitem | intros raw].
    apply effects_bind; [apply effects_getitem | intros ifType'].
    destruct (String.eqb _ _).
    + apply effects_make_counter_desc, HC.
    + apply effects_bind;
        [apply effects_make_gauge_desc, HG
        | intros _; apply effects_make_counter_desc, HC].
Qed.

Lemma effects_get_interface_indexes (self : Collector)
    (device host : string) (port : N) (community : string) :
  Q (WALK IF_MIB_INDEX_OID host port community) ->
  (forall ifIndexData ifIndex,
      snmp_walk self IF_MIB_INDEX_OID host port community
      = Return ifIndexData ->
      In ifIndex (values ifIndexData) ->
      effects P Q (index_body self device host port community ifIndex)) ->
  effects P Q (get_interface_indexes self device host port community).
Proof.
  intros HQ Hbody. unfold get_interface_indexes.
  change (join "." [IF_MIB_INDEX_OID]) with IF_MIB_INDEX_OID.
  apply effects_bind_returned; [now apply effects_walk |].
  intros ifIndexData Hret. rewrite walk_run in Hret. cbn [fst] in Hret.
  apply effects_for_each. intros ifIndex Hin. now apply (Hbody ifIndexData).
Qed.

Lemma effects_get_environment_oid (self : Collector) (device host : string)
    (port : N) (community : string) :
  Q (GET VENDOR_DESC_OID host port community) ->
  (forall cpu, In cpu (cpu_records device host community) -> P cpu) ->
  effects P Q (get_environment_oid self device host port community).
Proof.
  intros HQ HP. unfold get_environment_oid.
  apply effects_bind; [now apply effects_get | intros vendorData].
  apply effects_bind; [apply effects_getitem | intros vendorHexString].
  destruct (str_in _ _); [| destruct (str_in _ _)];
    apply effects_OIDS_append, HP; unfold cpu_records; simpl; tauto.
Qed.

Lemma effects_blank {A} (m : M A) :
  effects P Q m ->
  Forall P (OIDS (snd (m blank))) /\ Forall Q (sent (snd (m blank))).
Proof.
  intros (o & ls & rs & HP & HQ & H). now rewrite (H blank).
Qed.

End Effects.

Lemma effects_discovery (P : string -> Prop) (Q : request -> Prop)
    (self : Collector) (device host : string) (port : N)
    (community : string) :
  Q (WALK IF_MIB_INDEX_OID host port community) ->
  (forall oid, Q (GET oid host port community)) ->
  (forall ifIndexData ifIndex ifName e,
      snmp_walk self IF_MIB_INDEX_OID host port community
      = Return ifIndexData ->
      In ifIndex (values ifIndexData) ->
      In e IF_MIB_GAUGE_OID_TABLE ->
      P (gauge_line self device host community ifName ifIndex e)) ->
  (forall ifIndexData ifIndex ifName e,
      snmp_walk self IF_MIB_INDEX_OID host port community
      = Return ifIndexData ->
      In ifIndex (values ifIndexData) ->
      In e IF_MIB_COUNTER_OID_TABLE ->
      P (counter_line self device host community ifName ifIndex e)) ->
  (forall cpu, In cpu (cpu_records device host community) -> P cpu) ->
  effects P Q (discovery self device host port community).
Proof.
  intros QW QG PG PC PCPU. unfold discovery. apply effects_bind.
  - apply effects_get_interface_indexes; [exact QW |].
    intros d i Hd Hi. apply effects_index_body; [exact QG | |].
    + intros ifName e. now apply (PG d).
    + intros ifName e. now apply (PC d).
  - intros _. apply effects_get_environment_oid; [apply QG | exact PCPU].
Qed.

Lemma gauge_line_shape (self : Collector)
    (device host community ifName ifIndex : string) (e : string * string) :
  record_shape device host community
    (gauge_line self device host community ifName ifIndex e).
Proof.
  exists "G", (snd e ++ "." ++ ifIndex)%string,
    (path (config self) ++ "." ++ re_sub_nonword "_" ifName ++ "."
       ++ fst e)%string.
  split; [now left |]. unfold gauge_line.
  now rewrite !string_app_assoc.
Qed.

Lemma counter_line_shape (self : Collector)
    (device host community ifName ifIndex : string) (e : string * string) :
  record_shape device host community
    (counter_line self device host community ifName ifIndex e).
Proof.
  exists "C", (snd e ++ "." ++ ifIndex)%string,
    (path (config self) ++ "." ++ re_sub_nonword "_" ifName ++ "."
       ++ fst e)%string.
  split; [now right |]. unfold counter_line.
  now rewrite !string_app_assoc.
Qed.

Lemma cpu_records_shape (device host community cpu : string) :
  In cpu (cpu_records device host community) ->
  record_shape device host community cpu.
Proof.
  intros [<- | [<- | [<- | []]]].
  - exists "G", "1.3.6.1.4.1.9.9.109.1.1.1.1.7.2", "cpu.1min_average_percent".
    split; [now left | reflexivity].
  - exists "G", "1.3.6.1.4.1.9.9.109.1.1.1.1.7.1", "cpu.1min_average_percent".
    split; [now left | reflexivity].
  - exists "G", "1.3.6.1.4.1.1588.2.1.1.1.26.1.0", "cpu.current_percent".
    split; [now left | reflexivity].
Qed.

(** X15. Every record that a discovery builds, also one that ends in an
    exception, has the five comma-separated parts of the catalog format:
    the kind letter [G] or [C], the host and the community as they were
    passed, an OID, and a metric path that starts with [devices.] and the
    device name. *)
Theorem X15_records_have_catalog_shape (self : Collector)
    (device host : string) (port : N) (community : string) :
  Forall (record_shape device host community)
         (discovered self device host port community).
Proof.
  apply (effects_blank _ (fun _ => True)).
  apply effects_discovery; try exact I; try (intros; exact I).
  - intros. apply gauge_line_shape.
  - intros. apply counter_line_shape.
  - apply cpu_records_shape.
Qed.

Lemma Forall_get_request (host : string) (port : N) (community : string)
    (reqs : list request) :
  Forall (get_request host port community) reqs ->
  exists oids, reqs = map (fun oid => GET oid host port community) oids.
Proof.
  induction 1 as [|r reqs (oid & ->) _ (oids & ->)].
  - now exists [].
  - now exists (oid :: oids).
Qed.

(** The requests of one discovery: the walk, then GETs. *)
Lemma discovery_requests (self : Collector) (device host : string)
    (port : N) (community : string) :
  exists oids : list string,
    sent (snd (discovery self device host port community blank))
    = WALK "1.3.6.1.2.1.2.2.1.1" host port community
      :: map (fun oid => GET oid host port community) oids.
Proof.
  assert (Hbody : forall i,
             effects (fun _ => True) (get_request host port community)
               (index_body self device host port community i)).
  { intros i. apply effects_index_body; try (intros; exact I).
    intros oid. now exists oid. }
  assert (Henv : effects (fun _ => True) (get_request host port community)
                   (get_environment_oid self device host port community)).
  { apply effects_get_environment_oid; [| intros; exact I].
    now exists VENDOR_DESC_OID. }
  destruct Henv as (o2 & l2 & r2 & _ & Q2 & Henv).
  unfold discovery, get_interface_indexes.
  change (join "." [IF_MIB_INDEX_OID]) with "1.3.6.1.2.1.2.2.1.1".
  unfold bind at 1 2. rewrite walk_run.
  destruct (snmp_walk self "1.3.6.1.2.1.2.2.1.1" host port community)
    as [d | e].
  - destruct (effects_for_each (fun _ => True)
                (get_request host port community) (values d)
                (index_body self device host port community)
                (fun i _ => Hbody i))
      as (o1 & l1 & r1 & _ & Q1 & Hloop).
    rewrite Hloop. destruct o1 as [[] | e].
    + rewrite Henv, !grow_grow.
      destruct (Forall_get_request host port community (r1 ++ r2))
        as (oids & E); [apply Forall_app; now split |].
      exists oids. cbn [snd sent grow blank app]. now rewrite <- E.
    + rewrite grow_grow.
      destruct (Forall_get_request host port community r1 Q1) as (oids & E).
      exists oids. cbn [snd sent grow blank app]. now rewrite <- E.
  - exists []. reflexivity.
Qed.

(** X16. Whatever the device answers, [collect_snmp] calls [self.walk]
    exactly once, first, on the interface index table, and after it only
    [self.get]; every request carries the host, port and community that
    were passed in. *)
Theorem X16_one_walk_then_gets (self : Collector) (device host : string)
    (port : N) (community : string) (s : state) :
  exists oids : list string,
    sent (snd (collect_snmp self device host port community s))
    = sent s
      ++ WALK "1.3.6.1.2.1.2.2.1.1" host port community
         :: map (fun oid => GET oid host port community) oids.
Proof.
  destruct (discovery_requests self device host port community)
    as (oids & E).
  exists oids. rewrite collect_snmp_run.
  destruct (fst (discovery self device host port community blank))
    as [[] | e]; [destruct (oidfile_writable (disk s)) |];
    cbn [snd collected sent]; now rewrite E.
Qed.

Lemma is_word_not_break (c : ascii) : is_word c = true -> is_break c = false.
Proof.
  destruct c as [[] [] [] [] [] [] [] []]; vm_compute;
    intros H; first [reflexivity | discriminate H].
Qed.

Lemma no_break_re_sub_nonword (s : string) :
  no_break (re_sub_nonword "_" s) = true.
Proof.
  induction s as [|c s IH]; [reflexivity |].
  rewrite re_sub_nonword_underscore_cons. cbn [no_break]. rewrite IH.
  destruct (is_word c) eqn:E; [| reflexivity].
  now rewrite (is_word_not_break c E).
Qed.

Section CleanRecords.
Variables (self : Collector) (device host community ifName ifIndex : string).
Hypothesis Hdevice : no_break device = true.
Hypothesis Hhost : no_break host = true.
Hypothesis Hcommunity : no_break community = true.
Hypothesis Hpath : no_break (path (config self)) = true.
Hypothesis HifIndex : no_break ifIndex = true.

Lemma gauge_line_no_break (e : string * string) :
  In e IF_MIB_GAUGE_OID_TABLE ->
  no_break (gauge_line self device host community ifName ifIndex e) = true.
Proof.
  intros He. unfold gauge_line.
  rewrite !no_break_app, Hdevice, Hhost, Hcommunity, Hpath, HifIndex,
    no_break_re_sub_nonword.
  repeat (destruct He as [<- | He]; [reflexivity |]). destruct He.
Qed.

Lemma counter_line_no_break (e : string * string) :
  In e IF_MIB_COUNTER_OID_TABLE ->
  no_break (counter_line self device host community ifName ifIndex e) = true.
Proof.
  intros He. unfold counter_line.
  rewrite !no_break_app, Hdevice, Hhost, Hcommunity, Hpath, HifIndex,
    no_break_re_sub_nonword.
  repeat (destruct He as [<- | He]; [reflexivity |]). destruct He.
Qed.

Lemma cpu_records_no_break (cpu : string) :
  In cpu (cpu_records device host community) -> no_break cpu = true.
Proof.
  intros [<- | [<- | [<- | []]]];
    rewrite !no_break_app, Hdevice, Hhost, Hcommunity; reflexivity.
Qed.

End CleanRecords.

Lemma filter_all {A} (f : A -> bool) (l : list A) :
  Forall (fun x => f x = true) l -> filter f l = l.
Proof.
  induction 1 as [|x l Hx _ IH]; [reflexivity |].
  simpl. now rewrite Hx, IH.
Qed.

(** X17. When the device name, the host, the community, the configured path
    and the indices of the walk hold no line terminator, a run that returns
    leaves a catalog that reads back as the kept lines followed by the
    records of the run, line for line, and the lines of the catalog that
    contain the host token are exactly the records this run built. *)
Theorem X17_host_records_are_those_of_the_run (self : Collector)
    (device host : string) (port : N) (community : string) (s s' : state) :
  no_break device = true ->
  no_break host = true ->
  no_break community = true ->
  no_break (path (config self)) = true ->
  (forall ifIndexData,
      snmp_walk self "1.3.6.1.2.1.2.2.1.1" host port community
      = Return ifIndexData ->
      Forall (fun ifIndex => no_break ifIndex = true) (values ifIndexData)) ->
  collect_snmp self device host port community s = (Return tt, s') ->
  catalog_lines (disk s')
  = other_lines host (disk s) ++ discovered self device host port community
  /\ host_lines host (disk s') = discovered self device host port community.
Proof.
  intros Hdevice Hhost Hcommunity Hpath Hwalk Hrun.
  assert (Hclean : Forall (fun l => no_break l = true)
                     (discovered self device host port community)).
  { apply (effects_blank _ (fun _ => True)).
    apply effects_discovery; try exact I; try (intros; exact I).
    - intros d i ifName e Hd Hi He. apply gauge_line_no_break; try assumption.
      specialize (Hwalk d Hd). rewrite Forall_forall in Hwalk. now apply Hwalk.
    - intros d i ifName e Hd Hi He.
      apply counter_line_no_break; try assumption.
      specialize (Hwalk d Hd). rewrite Forall_forall in Hwalk. now apply Hwalk.
    - intros cpu. now apply cpu_records_no_break. }
  assert (Hfresh : Forall (fun l => str_in host l = true)
                     (discovered self device host port community))
    by apply (appends_lines _ _ (appends_discovery self device host port
                                   community)).
  rewrite collect_snmp_run in Hrun.
  destruct (fst (discovery self device host port community blank))
    as [[] | e]; [| discriminate Hrun].
  destruct (oidfile_writable (disk s)); [| discriminate Hrun].
  injection Hrun as <-. unfold collected; cbn [disk].
  rewrite host_lines_after_write, catalog_after_write.
  rewrite (splitlines_written_clean _ Hclean).
  split; [reflexivity | now apply filter_all].
Qed.

Lemma X17_witness :
  host_lines Fixture.host
    (disk (snd (collect_snmp Fixture.router1 Fixture.device Fixture.host
                  Fixture.port Fixture.community Fixture.start)))
  = discovered Fixture.router1 Fixture.device Fixture.host Fixture.port
      Fixture.community.
Proof.
  refine (proj2
            (X17_host_records_are_those_of_the_run Fixture.router1
               Fixture.device Fixture.host Fixture.port Fixture.community
               Fixture.start
               (snd (collect_snmp Fixture.router1 Fixture.device Fixture.host
                       Fixture.port Fixture.community Fixture.start))
               eq_refl eq_refl eq_refl eq_refl _ _)).
  - intros ifIndexData H. injection H as <-. repeat constructor.
  - vm_compute. reflexivity.
Defined.

Lemma discovered_no_break (self : Collector) (device host : string)
    (port : N) (community : string) :
  clean_target self device host port community ->
  Forall (fun l => no_break l = true)
         (discovered self device host port community).
Proof.
  intros (Hdevice & Hhost & Hcommunity & Hpath & Hwalk).
  apply (effects_blank _ (fun _ => True)).
  apply effects_discovery; try exact I; try (intros; exact I).
  - intros d i ifName e Hd Hi He. apply gauge_line_no_break; try assumption.
    specialize (Hwalk d Hd). rewrite Forall_forall in Hwalk. now apply Hwalk.
  - intros d i ifName e Hd Hi He. apply counter_line_no_break; try assumption.
    specialize (Hwalk d Hd). rewrite Forall_forall in Hwalk. now apply Hwalk.
  - intros cpu. now apply cpu_records_no_break.
Qed.

Lemma discovered_has_host (self : Collector) (device host : string)
    (port : N) (community : string) :
  Forall (fun l => str_in host l = true)
         (discovered self device host port community).
Proof.
  apply (appends_lines _ _ (appends_discovery self device host port
                              community)).
Qed.

(** The file that a run leaves when it returns. *)
Lemma collect_snmp_return (self : Collector) (device host : string)
    (port : N) (community : string) (s s' : state) :
  collect_snmp self device host port community s = (Return tt, s') ->
  disk s'
  = {| oidfile :=
         Some (written (other_lines host (disk s)
                        ++ discovered self device host port community));
       oidfile_writable := true |}.
Proof.
  intros Hrun. rewrite collect_snmp_run in Hrun.
  destruct (fst (discovery self device host port community blank))
    as [[] | e]; [| discriminate Hrun].
  destruct (oidfile_writable (disk s)); [| discriminate Hrun].
  now injection Hrun as <-.
Qed.

Lemma other_lines_no_host (host : string) (fs : filesystem) :
  Forall (fun l => str_in host l = false) (other_lines host fs).
Proof.
  unfold other_lines. apply Forall_forall. intros l Hl.
  apply filter_In in Hl as [_ Hl]. now apply negb_true_iff.
Qed.

Lemma filter_nothing {A} (f : A -> bool) (l : list A) :
  Forall (fun x => f x = false) l -> filter f l = [].
Proof.
  induction 1 as [|x l Hx _ IH]; [reflexivity |].
  simpl. now rewrite Hx.
Qed.

Lemma filter_all_negb {A} (f : A -> bool) (l : list A) :
  forallb (fun x => negb (f x)) l = true ->
  filter (fun x => negb (f x)) l = l.
Proof.
  intros H. apply filter_all. apply Forall_forall.
  rewrite forallb_forall in H. exact H.
Qed.

(** X18. Two hosts share the catalog.  When the strings of both targets
    hold no line terminator and no record of one host contains the token of
    the other, a run for host A followed by a run for host B, both
    returning, leaves a catalog in which the lines of A are exactly the
    records of A's run and the lines of B exactly those of B's run: the
    second run takes nothing from the first. *)
Theorem X18_two_hosts_coexist (self : Collector)
    (deviceA hostA : string) (portA : N) (communityA : string)
    (deviceB hostB : string) (portB : N) (communityB : string)
    (s s1 s2 : state) :
  clean_target self deviceA hostA portA communityA ->
  clean_target self deviceB hostB portB communityB ->
  forallb (fun record => negb (str_in hostB record))
          (discovered self deviceA hostA portA communityA) = true ->
  forallb (fun record => negb (str_in hostA record))
          (discovered self deviceB hostB portB communityB) = true ->
  collect_snmp self deviceA hostA portA communityA s = (Return tt, s1) ->
  collect_snmp self deviceB hostB portB communityB s1 = (Return tt, s2) ->
  host_lines hostA (disk s2)
  = discovered self deviceA hostA portA communityA
  /\ host_lines hostB (disk s2)
     = discovered self deviceB hostB portB communityB.
Proof.
  intros HcleanA HcleanB HAB HBA HrunA HrunB.
  pose proof (discovered_no_break _ _ _ _ _ HcleanA) as HnbA.
  pose proof (discovered_no_break _ _ _ _ _ HcleanB) as HnbB.
  apply collect_snmp_return in HrunA, HrunB.
  rewrite HrunB. split.
  - unfold host_lines. rewrite catalog_after_write.
    rewrite (splitlines_written_clean _ HnbB), filter_app.
    rewrite (filter_none _ _ HBA), app_nil_r.
    unfold other_lines at 1. rewrite HrunA, catalog_after_write.
    rewrite (splitlines_written_clean _ HnbA), !filter_app.
    rewrite (filter_all_negb _ _ HAB).
    rewrite (filter_all _ _ (discovered_has_host self deviceA hostA portA
                               communityA)).
    rewrite (filter_nothing (str_in hostA)); [reflexivity |].
    apply Forall_filter, other_lines_no_host.
  - rewrite host_lines_after_write, (splitlines_written_clean _ HnbB).
    apply filter_all, discovered_has_host.
Qed.

(** X18 at [router1] and then [router2] on the shared catalog. *)
Lemma X18_witness :
  let s1 :=
    snd (collect_snmp Fixture.router1 Fixture.device Fixture.host
           Fixture.port Fixture.community Fixture.start) in
  let s2 :=
    snd (collect_snmp Fixture.router1 Fixture.device2 Fixture.host2
           Fixture.port Fixture.community s1) in
  host_lines Fixture.host (disk s2)
  = discovered Fixture.router1 Fixture.device Fixture.host Fixture.port
      Fixture.community
  /\ host_lines Fixture.host2 (disk s2)
     = discovered Fixture.router1 Fixture.device2 Fixture.host2 Fixture.port
         Fixture.community.
Proof.
  intros s1 s2.
  refine (X18_two_hosts_coexist Fixture.router1
            Fixture.device Fixture.host Fixture.port Fixture.community
            Fixture.device2 Fixture.host2 Fixture.port Fixture.community
            Fixture.start s1 s2 _ _ _ _ _ _).
  - repeat split. intros d H. injection H as <-. repeat constructor.
  - repeat split. intros d H. injection H as <-. repeat constructor.
  - vm_compute. reflexivity.
  - vm_compute. reflexivity.
  - vm_compute. reflexivity.
  - vm_compute. reflexivity.
Defined.
